(** * The essay-writer workflow: state shape, step functions and sequencing

    A shallow embedding of [src/core/essay_writer.py]: the [AgentState]
    dictionary, the five node functions, the conditional edge
    [should_continue], the graph built by [_build_graph_structure], and the
    session API ([create_session], [run_step], [get_session_state],
    [update_state]) of [EnhancedEssayWriter].

    The node functions call a language model and a search service, and the
    session API drives a graph-execution engine.  The providers are taken as
    oracles (section variable [R]); the engine is modelled by its contract:
    channels with reducers, edges, pause points and a per-thread checkpoint
    store. *)

From stdpp Require Import gmap strings list fin_maps pretty.

Open Scope Z_scope.
Open Scope string_scope.

(** ** Text *)

(** Python text is modelled by [string], read as the UTF-8 encoding of the
    text: a character of the text is one to four bytes of the string. *)
Definition nl : string := String (Ascii.ascii_of_nat 10) EmptyString.

(** [sep.join(parts)] *)
Fixpoint join (sep : string) (parts : list string) : string :=
  match parts with
  | [] => ""
  | [p] => p
  | p :: rest => p +:+ sep +:+ join sep rest
  end.

(** The code points of a text.  [need] is the number of continuation bytes
    still expected for the character being read and [acc] the bits read so
    far.  (A byte sequence that is not the encoding of a text, which no
    Python [str] gives, is read leniently.) *)
Fixpoint code_points (need : nat) (acc : Z) (s : string) : list Z :=
  match s with
  | EmptyString => []
  | String c rest =>
      let b := Z.of_nat (Ascii.nat_of_ascii c) in
      match need with
      | O =>
          if (b <? 128)%Z then b :: code_points 0 0 rest
          else if (b <? 192)%Z then code_points 0 0 rest
          else if (b <? 224)%Z then code_points 1 (b - 192) rest
          else if (b <? 240)%Z then code_points 2 (b - 224) rest
          else code_points 3 (b - 240) rest
      | S O => (acc * 64 + (b - 128)) :: code_points 0 0 rest
      | S need' => code_points need' (acc * 64 + (b - 128)) rest
      end
  end.

(** The characters [str.split()] treats as separators: tab, line feed,
    vertical tab, form feed, carriage return, the four information
    separators and space; next line, no-break space, ogham space mark, the
    spaces U+2000 to U+200A, line and paragraph separator, narrow no-break
    space, medium mathematical space and ideographic space. *)
Definition isspace (c : Z) : bool :=
  ((9 <=? c)%Z && (c <=? 13)%Z) || ((28 <=? c)%Z && (c <=? 32)%Z)
  || (c =? 133)%Z || (c =? 160)%Z || (c =? 5760)%Z
  || ((8192 <=? c)%Z && (c <=? 8202)%Z)
  || (c =? 8232)%Z || (c =? 8233)%Z || (c =? 8239)%Z || (c =? 8287)%Z
  || (c =? 12288)%Z.

(** [len(s.split())]: the number of maximal runs of non-space characters.
    [inword] tells whether the previous character belonged to a word. *)
Fixpoint count_words (inword : bool) (s : list Z) : Z :=
  match s with
  | [] => 0
  | c :: rest =>
      if isspace c then count_words false rest
      else (if inword then 0 else 1) + count_words true rest
  end.

Definition split_len (s : string) : Z :=
  count_words false (code_points 0 0 s).

(** The UTF-8 encoding of [a], U+2003, [b], U+3000, [c]. *)
Definition em_ideographic : string :=
  String.string_of_list_ascii
    (map Ascii.ascii_of_nat [97; 226; 128; 131; 98; 227; 128; 128; 99]%nat).

(** ** The workflow state *)

(** [class AgentState(TypedDict)].  A node receives the state as a
    dictionary holding the keys whose channel has a value, and returns a
    dictionary holding only the keys it writes.  Both are values of this
    record: a field is [None] when the key is absent and [Some v] when the
    key is bound to [v], with [v] of the annotated type.  The three
    [Optional] keys may be bound to Python's [None], hence the nested
    option. *)
Record AgentState : Type := Dict {
  task : option string;
  lnode : option string;
  plan : option string;
  draft : option string;
  critique : option string;
  content : option (list string);
  queries : option (list string);
  revision_number : option Z;
  max_revisions : option Z;
  count : option Z;
  user_id : option (option Z);
  essay_id : option (option Z);
  session_id : option (option string)
}.

(** The empty dictionary [{}]. *)
Definition dict0 : AgentState :=
  Dict None None None None None None None None None None None None None.

(** The keys of [AgentState], their names and the annotated types. *)
Inductive Key : Set :=
  | k_task | k_lnode | k_plan | k_draft | k_critique | k_content | k_queries
  | k_revision_number | k_max_revisions | k_count
  | k_user_id | k_essay_id | k_session_id.

Definition key_name (k : Key) : string :=
  match k with
  | k_task => "task" | k_lnode => "lnode" | k_plan => "plan"
  | k_draft => "draft" | k_critique => "critique" | k_content => "content"
  | k_queries => "queries" | k_revision_number => "revision_number"
  | k_max_revisions => "max_revisions" | k_count => "count"
  | k_user_id => "user_id" | k_essay_id => "essay_id"
  | k_session_id => "session_id"
  end.

Definition key_type (k : Key) : Type :=
  match k with
  | k_task | k_lnode | k_plan | k_draft | k_critique => string
  | k_content | k_queries => list string
  | k_revision_number | k_max_revisions | k_count => Z
  | k_user_id | k_essay_id => option Z
  | k_session_id => option string
  end.

(** [d.get(key)] as an option. *)
Definition lookup_key (k : Key) (d : AgentState) : option (key_type k) :=
  match k with
  | k_task => task d | k_lnode => lnode d | k_plan => plan d
  | k_draft => draft d | k_critique => critique d | k_content => content d
  | k_queries => queries d | k_revision_number => revision_number d
  | k_max_revisions => max_revisions d | k_count => count d
  | k_user_id => user_id d | k_essay_id => essay_id d
  | k_session_id => session_id d
  end.

(** [d[key] = value] *)
Definition setitem (k : Key) : key_type k -> AgentState -> AgentState :=
  match k with
  | k_task => fun v d =>
      Dict (Some v) (lnode d) (plan d) (draft d) (critique d) (content d)
        (queries d) (revision_number d) (max_revisions d) (count d)
        (user_id d) (essay_id d) (session_id d)
  | k_lnode => fun v d =>
      Dict (task d) (Some v) (plan d) (draft d) (critique d) (content d)
        (queries d) (revision_number d) (max_revisions d) (count d)
        (user_id d) (essay_id d) (session_id d)
  | k_plan => fun v d =>
      Dict (task d) (lnode d) (Some v) (draft d) (critique d) (content d)
        (queries d) (revision_number d) (max_revisions d) (count d)
        (user_id d) (essay_id d) (session_id d)
  | k_draft => fun v d =>
      Dict (task d) (lnode d) (plan d) (Some v) (critique d) (content d)
        (queries d) (revision_number d) (max_revisions d) (count d)
        (user_id d) (essay_id d) (session_id d)
  | k_critique => fun v d =>
      Dict (task d) (lnode d) (plan d) (draft d) (Some v) (content d)
        (queries d) (revision_number d) (max_revisions d) (count d)
        (user_id d) (essay_id d) (session_id d)
  | k_content => fun v d =>
      Dict (task d) (lnode d) (plan d) (draft d) (critique d) (Some v)
        (queries d) (revision_number d) (max_revisions d) (count d)
        (user_id d) (essay_id d) (session_id d)
  | k_queries => fun v d =>
      Dict (task d) (lnode d) (plan d) (draft d) (critique d) (content d)
        (Some v) (revision_number d) (max_revisions d) (count d)
        (user_id d) (essay_id d) (session_id d)
  | k_revision_number => fun v d =>
      Dict (task d) (lnode d) (plan d) (draft d) (critique d) (content d)
        (queries d) (Some v) (max_revisions d) (count d)
        (user_id d) (essay_id d) (session_id d)
  | k_max_revisions => fun v d =>
      Dict (task d) (lnode d) (plan d) (draft d) (critique d) (content d)
        (queries d) (revision_number d) (Some v) (count d)
        (user_id d) (essay_id d) (session_id d)
  | k_count => fun v d =>
      Dict (task d) (lnode d) (plan d) (draft d) (critique d) (content d)
        (queries d) (revision_number d) (max_revisions d) (Some v)
        (user_id d) (essay_id d) (session_id d)
  | k_user_id => fun v d =>
      Dict (task d) (lnode d) (plan d) (draft d) (critique d) (content d)
        (queries d) (revision_number d) (max_revisions d) (count d)
        (Some v) (essay_id d) (session_id d)
  | k_essay_id => fun v d =>
      Dict (task d) (lnode d) (plan d) (draft d) (critique d) (content d)
        (queries d) (revision_number d) (max_revisions d) (count d)
        (user_id d) (Some v) (session_id d)
  | k_session_id => fun v d =>
      Dict (task d) (lnode d) (plan d) (draft d) (critique d) (content d)
        (queries d) (revision_number d) (max_revisions d) (count d)
        (user_id d) (essay_id d) (Some v)
  end.

(** A dictionary literal [{k1: v1, k2: v2, ...}] is written
    [dict0 .[ k1 ↦ v1 ] .[ k2 ↦ v2 ] ...]. *)
Notation "d .[ k ↦ v ]" := (setitem k v d)
  (at level 1, left associativity, format "d .[ k  ↦  v ]").

(** [d[key]] fails with [KeyError] on an absent key; [str] of a [KeyError]
    is the [repr] of the key. *)
Record exn : Type := Exception { cls : string; msg : string }.

Definition KeyError (k : Key) : exn :=
  Exception "KeyError" ("'" +:+ key_name k +:+ "'").

(** Truth value of [state.get('essay_id')]: absent, [None] and [0] are
    false; otherwise the identifier is returned. *)
Definition truthy_id (d : AgentState) : option Z :=
  match essay_id d with
  | Some (Some i) => if (i =? 0)%Z then None else Some i
  | _ => None
  end.

(** ** The essay table *)

(** The columns of [database.models.Essay] that the workflow reads or
    writes (time stamps are numbers). *)
Module Essay.
Record t : Type := Row {
  title : string;
  topic : string;
  plan : option string;
  draft : option string;
  critique : option string;
  final_essay : option string;
  status : string;
  revision_number : Z;
  word_count : Z;
  updated_at : Z;
  completed_at : option Z
}.
End Essay.

(** ** Checkpoints and the compiled graph *)

(** What the engine stores for a thread after each step: the channel
    values, the nodes to run next, and where the checkpoint came from. *)
Record Metadata : Type := Meta { source : string; step : Z }.

Record Checkpoint : Type := Snapshot {
  values : AgentState;
  next : list string;
  metadata : Metadata
}.

(** The result of [builder.compile(checkpointer=memory, interrupt_after=..)]:
    the pause points and the in-memory saver, which maps a thread identifier
    to its checkpoints, newest first.  The nodes and edges are those of
    [self.builder], which never changes after construction. *)
Record CompiledStateGraph : Type := Compiled {
  interrupt_after_nodes : option (list string);
  checkpointer : gmap string (list Checkpoint)
}.

(** ** The writer object and its environment *)

(** The mutable attributes of an [EnhancedEssayWriter] ([self.db], a
    session on the essay table or [None], and [self.graph]), together with
    the number of calls made so far to the outside (model, search, clock,
    identifier generator), which indexes the oracles' answers. *)
Record World : Type := Env {
  self_db : option (gmap Z Essay.t);
  self_graph : CompiledStateGraph;
  calls : nat
}.

(** Computations that read and change the world and may raise. *)
Definition M (A : Type) : Type := World -> (exn + A) * World.

Definition ret {A} (a : A) : M A := fun w => (inr a, w).

Definition bind {A B} (c : M A) (k : A -> M B) : M B :=
  fun w => match c w with
           | (inl e, w') => (inl e, w')
           | (inr a, w') => k a w'
           end.

Definition raise {A} (e : exn) : M A := fun w => (inl e, w).

(** [try: body except Exception as e: handler(e)] *)
Definition try_except {A} (body : M A) (handler : exn -> M A) : M A :=
  fun w => match body w with
           | (inl e, w') => handler e w'
           | (inr a, w') => (inr a, w')
           end.

Notation "'let*' x ':=' c 'in' k" := (bind c (fun x => k))
  (at level 10, x pattern, c at level 100, k at level 200).

Definition getitem (k : Key) (d : AgentState) : M (key_type k) :=
  match lookup_key k d with
  | Some v => ret v
  | None => raise (KeyError k)
  end.

(** Chat messages sent to the model. *)
Inductive Message : Type :=
  | SystemMessage (text : string)
  | HumanMessage (text : string).

(** What the program obtains from outside.  Every answer depends on the
    position of the call in the run, so a provider may answer the same
    request differently at different times, and may fail. *)
Record Runtime : Type := {
  (** [self.model.invoke(messages).content] *)
  model_invoke : nat -> list Message -> exn + string;
  (** [self.model.with_structured_output(Queries).invoke(messages).queries] *)
  structured_invoke : nat -> list Message -> exn + list string;
  (** [[r['content'] for r in
       self.tavily.search(query=q, max_results=n)['results']]] *)
  tavily_search : nat -> string -> Z -> exn + list string;
  (** [datetime.utcnow()] *)
  utcnow : nat -> Z;
  (** [str(uuid.uuid4())] *)
  uuid4 : nat -> string;
  (** [str] of a list of strings, as an f-string renders it *)
  repr : list string -> string;
  (** the engine's bound on the number of steps of one [invoke] *)
  recursion_limit : nat;
  (** [str] of the [GraphRecursionError] the engine raises at that bound *)
  recursion_error : string
}.

Definition tick (w : World) : World :=
  Env (self_db w) (self_graph w) (S (calls w)).

(** A call to a provider that may fail. *)
Definition call {A} (f : nat -> exn + A) : M A :=
  fun w => (f (calls w), tick w).

(** A call to a provider that always answers. *)
Definition ask {A} (f : nat -> A) : M A :=
  fun w => (inr (f (calls w)), tick w).

(** ** Arguments and results of the session API *)

(** The [StateSnapshot] that [graph.get_state] returns, with the fields
    the program reads; [metadata] may be [None]. *)
Module StateSnapshot.
Record t : Type := Make {
  values : AgentState;
  next : list string;
  metadata : option Metadata
}.
End StateSnapshot.

(** [{"configurable": {"thread_id": ...}}] *)
Record ThreadConfig : Type := Configurable { thread_id : string }.

(** The dictionary returned by [run_step].  A field is [None] when its
    key is absent or bound to Python's [None]. *)
Module StepResult.
Record t : Type := Make {
  success : bool;
  response : option AgentState;
  error : option string;
  current_state : option AgentState;
  next_node : option (list string);
  metadata : option Metadata
}.
End StepResult.

(** The dictionary returned by [update_state]. *)
Module EditResult.
Record t : Type := Make { success : bool; error : option string }.
End EditResult.

(** The dictionary returned by [get_session_state]. *)
Module StateView.
Record t : Type := Make {
  values : option AgentState;
  next_node : option (list string);
  metadata : option Metadata;
  error : option string
}.
End StateView.

(** ** Prompts *)

Definition PLAN_PROMPT : string :=
  "You are an expert writer tasked with writing a high level outline of a short 3 paragraph essay. "
  +:+ "Write such an outline for the user provided topic. Give the three main headers of an outline of "
  +:+ "the essay along with any relevant notes or instructions for the sections.".

(** [self.WRITER_PROMPT.format(content=content)]: the only replacement
    field of the prompt is its last item. *)
Definition WRITER_PROMPT_format (content : string) : string :=
  "You are an essay assistant tasked with writing excellent 3 paragraph essays. "
  +:+ "Generate the best essay possible for the user's request and the initial outline. "
  +:+ "If the user provides critique, respond with a revised version of your previous attempts. "
  +:+ "Utilize all the information below as needed: " +:+ nl
  +:+ "------" +:+ nl
  +:+ content.

Definition RESEARCH_PLAN_PROMPT : string :=
  "You are a researcher charged with providing information that can "
  +:+ "be used when writing the following essay. Generate a list of search "
  +:+ "queries that will gather any relevant information. Only generate 3 queries max.".

Definition REFLECTION_PROMPT : string :=
  "You are a teacher grading a 3 paragraph essay submission. "
  +:+ "Generate critique and recommendations for the user's submission. "
  +:+ "Provide detailed recommendations, including requests for length, depth, style, etc.".

Definition RESEARCH_CRITIQUE_PROMPT : string :=
  "You are a researcher charged with providing information that can "
  +:+ "be used when making any requested revisions (as outlined below). "
  +:+ "Generate a list of search queries that will gather any relevant information. "
  +:+ "Only generate 2 queries max.".

(** The name the engine gives to the end of the graph. *)
Definition END : string := "__end__".

Section Workflow.

Variable R : Runtime.

(** ** Saving to the essay table *)

(** The block shared by the nodes and by [should_continue]:
<<
    if self.db and state.get('essay_id'):
        essay = self.db.query(Essay).get(state['essay_id'])
        if essay:
            ...assignments...
            self.db.commit()
>>
    [change clock e] is the row after the assignments and the commit, which
    read the clock [reads] times; [clock j] is the value of the read number
    [j]. *)
Definition save_essay (state : AgentState) (reads : nat)
    (change : (nat -> Z) -> Essay.t -> Essay.t) : M unit :=
  fun w =>
    match self_db w, truthy_id state with
    | Some db, Some i =>
        match db !! i with
        | Some essay =>
            let clock j := utcnow R (calls w + j)%nat in
            (inr tt,
             Env (Some (<[i := change clock essay]> db))
                 (self_graph w) (calls w + reads)%nat)
        | None => (inr tt, w)
        end
    | _, _ => (inr tt, w)
    end.

(** ** The node functions *)

Definition plan_node (state : AgentState) : M AgentState :=
  let* topic := getitem k_task state in
  let messages := [SystemMessage PLAN_PROMPT; HumanMessage topic] in
  let* response := call (fun i => model_invoke R i messages) in
  let* _ := save_essay state 1%nat (fun clock e =>
    Essay.Row (Essay.title e) (Essay.topic e) (Some response) (Essay.draft e)
      (Essay.critique e) (Essay.final_essay e) (Essay.status e)
      (Essay.revision_number e) (Essay.word_count e) (clock 0%nat)
      (Essay.completed_at e)) in
  ret (dict0 .[k_plan ↦ response] .[k_lnode ↦ "planner"] .[k_count ↦ 1]).

(** The loop shared by the two research nodes:
<<
    for q in queries.queries:
        response = self.tavily.search(query=q, max_results=2)
        for r in response['results']:
            content.append(r['content'])
>>
    The list is extended in place; the node returns that same list, so the
    value it hands to the engine is the extended list either way. *)
Fixpoint search_all (qs : list string) (content : list string)
    : M (list string) :=
  match qs with
  | [] => ret content
  | q :: rest =>
      let* results := call (fun i => tavily_search R i q 2) in
      search_all rest (content ++ results)
  end.

Definition research_plan_node (state : AgentState) : M AgentState :=
  let* topic := getitem k_task state in
  let* qs := call (fun i => structured_invoke R i
                     [SystemMessage RESEARCH_PLAN_PROMPT; HumanMessage topic]) in
  (* [state['content'] or []]: an empty list is replaced by a new empty one *)
  let* content0 := getitem k_content state in
  let* content := search_all qs content0 in
  ret (dict0 .[k_content ↦ content] .[k_queries ↦ qs]
             .[k_lnode ↦ "research_plan"] .[k_count ↦ 1]).

(** [state.get("revision_number", 1) + 1] *)
Definition next_revision (state : AgentState) : Z :=
  default 1 (revision_number state) + 1.

Definition generation_node (state : AgentState) : M AgentState :=
  let* content0 := getitem k_content state in
  let content := join (nl +:+ nl) content0 in
  let* topic := getitem k_task state in
  let* outline := getitem k_plan state in
  let user_message :=
    HumanMessage (topic +:+ nl +:+ nl +:+ "Here is my plan:"
                        +:+ nl +:+ nl +:+ outline) in
  let messages := [SystemMessage (WRITER_PROMPT_format content); user_message] in
  let* response := call (fun i => model_invoke R i messages) in
  let* _ := save_essay state 1%nat (fun clock e =>
    Essay.Row (Essay.title e) (Essay.topic e) (Essay.plan e) (Some response)
      (Essay.critique e) (Essay.final_essay e) (Essay.status e)
      (next_revision state) (split_len response) (clock 0%nat)
      (Essay.completed_at e)) in
  ret (dict0 .[k_draft ↦ response]
             .[k_revision_number ↦ next_revision state]
             .[k_lnode ↦ "generate"] .[k_count ↦ 1]).

Definition reflection_node (state : AgentState) : M AgentState :=
  let* essay := getitem k_draft state in
  let messages := [SystemMessage REFLECTION_PROMPT; HumanMessage essay] in
  let* response := call (fun i => model_invoke R i messages) in
  let* _ := save_essay state 1%nat (fun clock e =>
    Essay.Row (Essay.title e) (Essay.topic e) (Essay.plan e) (Essay.draft e)
      (Some response) (Essay.final_essay e) (Essay.status e)
      (Essay.revision_number e) (Essay.word_count e) (clock 0%nat)
      (Essay.completed_at e)) in
  ret (dict0 .[k_critique ↦ response] .[k_lnode ↦ "reflect"] .[k_count ↦ 1]).

Definition research_critique_node (state : AgentState) : M AgentState :=
  let* remarks := getitem k_critique state in
  let* qs := call (fun i => structured_invoke R i
                     [SystemMessage RESEARCH_CRITIQUE_PROMPT;
                      HumanMessage remarks]) in
  let* content0 := getitem k_content state in
  let* content := search_all qs content0 in
  ret (dict0 .[k_content ↦ content]
             .[k_lnode ↦ "research_critique"] .[k_count ↦ 1]).

(** The conditional edge after [generate]. *)
Definition should_continue (state : AgentState) : M string :=
  let* revision := getitem k_revision_number state in
  let* limit := getitem k_max_revisions state in
  if (revision >? limit)%Z then
    (* [updated_at] is not assigned: the column's [onupdate] default reads
       the clock again when the row is written *)
    let* _ := save_essay state 2%nat (fun clock e =>
      Essay.Row (Essay.title e) (Essay.topic e) (Essay.plan e) (Essay.draft e)
        (Essay.critique e) (draft state) "completed"
        (Essay.revision_number e) (Essay.word_count e) (clock 1%nat)
        (Some (clock 0%nat))) in
    ret END
  else ret "reflect".

(** ** The graph builder *)

(** [StateGraph(AgentState)]: named nodes, an entry point, fixed edges and
    conditional edges (source, path function, map from the path function's
    results to targets). *)
Record StateGraph : Type := Builder {
  nodes : list (string * (AgentState -> M AgentState));
  entry_point : option string;
  edges : list (string * string);
  branches :
    list (string * ((AgentState -> M string) * list (string * string)))
}.

Definition add_node (name : string) (action : AgentState -> M AgentState)
    (b : StateGraph) : StateGraph :=
  Builder (nodes b ++ [(name, action)]) (entry_point b) (edges b) (branches b).

Definition set_entry_point (name : string) (b : StateGraph) : StateGraph :=
  Builder (nodes b) (Some name) (edges b) (branches b).

Definition add_conditional_edges (src : string) (path : AgentState -> M string)
    (path_map : list (string * string)) (b : StateGraph) : StateGraph :=
  Builder (nodes b) (entry_point b) (edges b)
          (branches b ++ [(src, (path, path_map))]).

Definition add_edge (src dst : string) (b : StateGraph) : StateGraph :=
  Builder (nodes b) (entry_point b) (edges b ++ [(src, dst)]) (branches b).

(** The builder calls of the source, in their order. *)
Definition _build_graph_structure : StateGraph :=
  let builder := Builder [] None [] [] in
  let builder := add_node "planner" plan_node builder in
  let builder := add_node "research_plan" research_plan_node builder in
  let builder := add_node "generate" generation_node builder in
  let builder := add_node "reflect" reflection_node builder in
  let builder := add_node "research_critique" research_critique_node builder in
  let builder := set_entry_point "planner" builder in
  let builder :=
    add_conditional_edges "generate" should_continue
      [(END, END); ("reflect", "reflect")] builder in
  let builder := add_edge "planner" "research_plan" builder in
  let builder := add_edge "research_plan" "generate" builder in
  let builder := add_edge "reflect" "research_critique" builder in
  let builder := add_edge "research_critique" "generate" builder in
  builder.

(** [list(self.builder.nodes.keys())] *)
Definition node_names (b : StateGraph) : list string := (nodes b).*1.

(** ** The graph-execution engine *)

(** First binding of a key in an association list. *)
Fixpoint assoc {A} (k : string) (l : list (string * A)) : option A :=
  match l with
  | [] => None
  | (k', a) :: rest => if decide (k = k') then Some a else assoc k rest
  end.

(** A channel without reducer keeps the last value written to it. *)
Definition last_value {A} (old new : option A) : option A :=
  match new with
  | Some v => Some v
  | None => old
  end.

(** The channel of [count: Annotated[int, operator.add]] adds what is
    written to what it holds. *)
Definition binop_add (old new : option Z) : option Z :=
  match new with
  | Some v => Some (match old with Some c => c + v | None => v end)
  | None => old
  end.

(** The channels after the dictionary [update] has been written to them. *)
Definition apply_writes (channels update : AgentState) : AgentState :=
  Dict (last_value (task channels) (task update))
       (last_value (lnode channels) (lnode update))
       (last_value (plan channels) (plan update))
       (last_value (draft channels) (draft update))
       (last_value (critique channels) (critique update))
       (last_value (content channels) (content update))
       (last_value (queries channels) (queries update))
       (last_value (revision_number channels) (revision_number update))
       (last_value (max_revisions channels) (max_revisions update))
       (binop_add (count channels) (count update))
       (last_value (user_id channels) (user_id update))
       (last_value (essay_id channels) (essay_id update))
       (last_value (session_id channels) (session_id update)).

(** The channels of a thread that has no checkpoint: all empty, except the
    accumulating one, which starts from [int()]. *)
Definition empty_channels : AgentState := dict0 .[k_count ↦ 0].

(** The targets chosen by the conditional edges that leave [n], evaluated on
    [state]. *)
Fixpoint run_branches
    (bs : list (string * ((AgentState -> M string) * list (string * string))))
    (n : string) (state : AgentState) : M (list string) :=
  match bs with
  | [] => ret []
  | (src, (path, path_map)) :: rest =>
      if decide (src = n) then
        let* r := path state in
        match assoc r path_map with
        | Some target =>
            let* others := run_branches rest n state in
            ret (target :: others)
        | None => raise (Exception "KeyError" ("'" +:+ r +:+ "'"))
        end
      else run_branches rest n state
  end.

(** The nodes scheduled after node [n] has written, [state] being the state
    that includes its writes: the targets of its edges, [END] left out. *)
Definition successors (g : StateGraph) (n : string) (state : AgentState)
    : M (list string) :=
  let fixed := (filter (fun e => e.1 = n) (edges g)).*2 in
  let* chosen := run_branches (branches g) n state in
  ret (filter (fun t => t ≠ END) (fixed ++ chosen)%list).

(** One node of a step: run it on [state], and evaluate its outgoing edges
    on the state with its writes.  The result is the node's update and the
    nodes it schedules. *)
Definition run_task (g : StateGraph) (state : AgentState) (n : string)
    : M (AgentState * list string) :=
  match assoc n (nodes g) with
  | None => raise (Exception "ValueError" ("Unknown node " +:+ n))
  | Some action =>
      let* update := action state in
      let* scheduled := successors g n (apply_writes state update) in
      ret (update, scheduled)
  end.

(** All the pending nodes of a step read the same state. *)
Fixpoint run_tasks (g : StateGraph) (state : AgentState)
    (pending : list string) : M (list (AgentState * list string)) :=
  match pending with
  | [] => ret []
  | n :: rest =>
      let* r := run_task g state n in
      let* rs := run_tasks g state rest in
      ret (r :: rs)
  end.

Definition get_world : M World := fun w => (inr w, w).

Definition set_graph (c : CompiledStateGraph) : M unit :=
  fun w => (inr tt, Env (self_db w) c (calls w)).

Definition history (tid : string) (w : World) : list Checkpoint :=
  default [] (checkpointer (self_graph w) !! tid).

(** The saver stores a new checkpoint for the thread. *)
Definition put_checkpoint (tid : string) (cp : Checkpoint) : M unit :=
  fun w =>
    let c := self_graph w in
    (inr tt,
     Env (self_db w)
         (Compiled (interrupt_after_nodes c)
                   (<[tid := cp :: history tid w]> (checkpointer c)))
         (calls w)).

(** One step from checkpoint [cp]: the pending nodes run, their updates are
    written and the result is saved. *)
Definition superstep (g : StateGraph) (tid : string) (cp : Checkpoint)
    : M Checkpoint :=
  let* results := run_tasks g (values cp) (next cp) in
  let cp' :=
    Snapshot (foldl apply_writes (values cp) results.*1)
             (concat results.*2)
             (Meta "loop" (step (metadata cp) + 1)) in
  let* _ := put_checkpoint tid cp' in
  ret cp'.

(** The loop of one [invoke], which may start [fuel] more steps.  Before
    each step the engine checks the bound, and raises when it is used up,
    also when no node is pending any more; then it stops if no node is
    pending; otherwise the pending nodes run, and the loop stops if one of
    them is a pause point. *)
Fixpoint pregel_loop (g : StateGraph) (pause : list string) (tid : string)
    (fuel : nat) (cp : Checkpoint) : M AgentState :=
  match fuel with
  | O => raise (Exception "GraphRecursionError" (recursion_error R))
  | S fuel' =>
      match next cp with
      | [] => ret (values cp)
      | _ :: _ =>
          let* cp' := superstep g tid cp in
          if existsb (fun n => bool_decide (n ∈ pause)) (next cp)
          then ret (values cp')
          else pregel_loop g pause tid fuel' cp'
      end
  end.

(** The channels and the step number the engine starts from on a thread
    that has no checkpoint. *)
Definition no_checkpoint : Checkpoint :=
  Snapshot empty_channels [] (Meta "input" (-2)).

Definition latest (tid : string) (w : World) : Checkpoint :=
  match history tid w with
  | cp :: _ => cp
  | [] => no_checkpoint
  end.

(** [graph.invoke(input, config)].  With an input, the engine saves a
    checkpoint for the input (step -1 on a new thread), writes the input to
    the thread's channels (step 0) and runs from the entry point, so that
    the first node's checkpoint has step 1; with [None], it resumes from the
    thread's last checkpoint.  The bound [recursion_limit] counts from the
    step at which [invoke] starts: the two steps that receive the input are
    part of it, so that [recursion_limit] more may start, and a resumed run
    may start two more than that. *)
Definition invoke (g : StateGraph) (input : option AgentState)
    (tid : string) : M AgentState :=
  let* w := get_world in
  let pause := default [] (interrupt_after_nodes (self_graph w)) in
  match input, history tid w with
  | Some i, _ =>
      let base := latest tid w in
      let received :=
        Snapshot (values base) ["__start__"]
                 (Meta "input" (step (metadata base) + 1)) in
      let cp0 :=
        Snapshot (apply_writes (values base) i)
                 (option_list (entry_point g))
                 (Meta "loop" (step (metadata base) + 2)) in
      let* _ := put_checkpoint tid received in
      let* _ := put_checkpoint tid cp0 in
      pregel_loop g pause tid (recursion_limit R) cp0
  | None, cp :: _ => pregel_loop g pause tid (recursion_limit R + 2) cp
  | None, [] =>
      raise (Exception "EmptyInputError" "Received no input for __start__")
  end.

(** [graph.get_state(config)]: the values, pending nodes and metadata of
    the thread's last checkpoint; for a thread without checkpoint, the empty
    dictionary, no pending node and [None] as metadata. *)
Definition get_state (tid : string) : M StateSnapshot.t :=
  let* w := get_world in
  match history tid w with
  | cp :: _ =>
      ret (StateSnapshot.Make (values cp) (next cp) (Some (metadata cp)))
  | [] => ret (StateSnapshot.Make dict0 [] None)
  end.

(** The step number of the thread's last checkpoint, as [update_state]
    reads it: -1 for a thread without checkpoint. *)
Definition saved_step (tid : string) (w : World) : Z :=
  match history tid w with
  | cp :: _ => step (metadata cp)
  | [] => -1
  end.

(** [graph.update_state(config, values, as_node=as_node)]: the values are
    written to the thread's channels as if node [as_node] had returned
    them, and the edges of [as_node] decide what runs next. *)
Definition graph_update_state (g : StateGraph) (tid : string)
    (vals : AgentState) (as_node : string) : M unit :=
  let* w := get_world in
  if bool_decide (as_node ∈ node_names g) then
    let state := apply_writes (values (latest tid w)) vals in
    let* scheduled := successors g as_node state in
    put_checkpoint tid
      (Snapshot state scheduled (Meta "update" (saved_step tid w + 1)))
  else
    raise (Exception "InvalidUpdateError"
             ("Node " +:+ as_node +:+ " does not exist")).

(** ** The session API of [EnhancedEssayWriter] *)

(** [self.builder], set once by [__init__]. *)
Definition self_builder : StateGraph := _build_graph_structure.

Definition _build_graph (interrupt_after : list string)
    : M CompiledStateGraph :=
  let valid := node_names self_builder in
  if bool_decide (interrupt_after ≠ [])
     && existsb (fun node => bool_decide (node ∉ valid)) interrupt_after
  then
    raise (Exception "ValueError"
             ("Invalid node names in interrupt_after: "
              +:+ repr R interrupt_after
              +:+ ", valid nodes are: " +:+ repr R valid))
  else
    let interrupt_after :=
      if bool_decide (interrupt_after = []) then None
      else Some interrupt_after in
    (* a new saver on a new in-memory database *)
    let memory : gmap string (list Checkpoint) := ∅ in
    ret (Compiled interrupt_after memory).

(** The state of the object after [__init__]: [self.graph] is
    [self._build_graph()]. *)
Definition init (db_session : option (gmap Z Essay.t)) : World :=
  Env db_session (Compiled None ∅) 0%nat.

(** The two [print] calls of the source write to the console only. *)
Definition create_session (user : Z) (essay : Z) (topic : string)
    (max_rev : Z) (interrupt_after : list string)
    : M (string * ThreadConfig * AgentState) :=
  let* session := ask (uuid4 R) in
  let* graph := _build_graph interrupt_after in
  let* _ := set_graph graph in
  let initial_state :=
    dict0 .[k_task ↦ topic]
          .[k_max_revisions ↦ max_rev]
          .[k_revision_number ↦ 0]
          .[k_lnode ↦ ""]
          .[k_plan ↦ ""]
          .[k_draft ↦ ""]
          .[k_critique ↦ ""]
          .[k_content ↦ []]
          .[k_queries ↦ []]
          .[k_count ↦ 0]
          .[k_user_id ↦ Some user]
          .[k_essay_id ↦ Some essay]
          .[k_session_id ↦ Some session] in
  let thread_config := Configurable session in
  ret (session, thread_config, initial_state).

Definition run_step (thread_config : ThreadConfig)
    (initial_state : option AgentState) : M StepResult.t :=
  try_except
    (let* response :=
       invoke self_builder initial_state (thread_id thread_config) in
     let* current_state := get_state (thread_id thread_config) in
     ret (StepResult.Make true (Some response) None
            (Some (StateSnapshot.values current_state))
            (Some (StateSnapshot.next current_state))
            (StateSnapshot.metadata current_state)))
    (fun e =>
       ret (StepResult.Make false None (Some (msg e)) None None None)).

Definition get_session_state (thread_config : ThreadConfig)
    : M StateView.t :=
  try_except
    (let* current_state := get_state (thread_id thread_config) in
     ret (StateView.Make (Some (StateSnapshot.values current_state))
            (Some (StateSnapshot.next current_state))
            (StateSnapshot.metadata current_state)
            None))
    (fun e => ret (StateView.Make None None None (Some (msg e)))).

Definition update_state (thread_config : ThreadConfig) (key : Key)
    (value : key_type key) (as_node : string) : M EditResult.t :=
  try_except
    (let* current_state := get_state (thread_id thread_config) in
     let vals := (StateSnapshot.values current_state) .[key ↦ value] in
     let* _ :=
       graph_update_state self_builder (thread_id thread_config) vals
         as_node in
     ret (EditResult.Make true None))
    (fun e => ret (EditResult.Make false (Some (msg e)))).

End Workflow.

(** ** Sample runtimes *)

(** Providers that always answer, used to run the definitions. *)
Definition sample_runtime : Runtime := {|
  model_invoke := fun i _ => inr "Some text.";
  structured_invoke := fun i _ =>
    inr (if Nat.even i then ["q1"; "q2"] else ["q3"]);
  tavily_search := fun i q _ => inr ["about " +:+ q];
  utcnow := fun i => Z.of_nat i;
  uuid4 := fun i => "session-" +:+ pretty i;
  repr := fun l => "[" +:+ join ", " l +:+ "]";
  recursion_limit := 25;
  recursion_error :=
    "Recursion limit of 25 reached without hitting a stop condition."
|}.

(** The same with a model that is down. *)
Definition failing_runtime : Runtime := {|
  model_invoke := fun i _ => inl (Exception "APIConnectionError" "Connection error.");
  structured_invoke := structured_invoke sample_runtime;
  tavily_search := tavily_search sample_runtime;
  utcnow := utcnow sample_runtime;
  uuid4 := uuid4 sample_runtime;
  repr := repr sample_runtime;
  recursion_limit := recursion_limit sample_runtime;
  recursion_error := recursion_error sample_runtime
|}.

(** The same with the bound on steps at nine. *)
Definition tight_runtime : Runtime := {|
  model_invoke := model_invoke sample_runtime;
  structured_invoke := structured_invoke sample_runtime;
  tavily_search := tavily_search sample_runtime;
  utcnow := utcnow sample_runtime;
  uuid4 := uuid4 sample_runtime;
  repr := repr sample_runtime;
  recursion_limit := 9;
  recursion_error :=
    "Recursion limit of 9 reached without hitting a stop condition."
|}.

(** ** Sample sessions *)

(** A session that pauses after [planner] and after [research_plan], on a
    writer without database. *)
Definition sample_tid : string := "session-0".

Definition sample_graph : StateGraph := self_builder sample_runtime.

Definition sample_init : AgentState :=
  Dict (Some "Tea") (Some "") (Some "") (Some "") (Some "")
       (Some []) (Some []) (Some 0) (Some 2) (Some 0)
       (Some (Some 7)) (Some (Some 1)) (Some (Some sample_tid)).

Definition sample_w0 : World :=
  (create_session sample_runtime 7 1 "Tea" 2 ["planner"; "research_plan"]
     (init None)).2.

(** The world after the first [run_step], paused after [planner]. *)
Definition sample_w1 : World :=
  (run_step sample_runtime (Configurable sample_tid) (Some sample_init)
     sample_w0).2.

Definition sample_cp : Checkpoint := latest sample_tid sample_w1.

Definition checkpoint_of (r : (exn + Checkpoint) * World) : Checkpoint :=
  match r.1 with
  | inr cp => cp
  | inl _ => no_checkpoint
  end.

(** The step that runs [research_plan], and the one that runs [generate]. *)
Definition sample_cp1 : Checkpoint :=
  checkpoint_of (superstep sample_graph sample_tid sample_cp sample_w1).

Definition sample_w2 : World :=
  (superstep sample_graph sample_tid sample_cp sample_w1).2.

Definition sample_cp2 : Checkpoint :=
  checkpoint_of (superstep sample_graph sample_tid sample_cp1 sample_w2).

Definition sample_w3 : World :=
  (superstep sample_graph sample_tid sample_cp1 sample_w2).2.

(** The same session pausing after [reflect] only: the world after its
    first [run_step], where [research_critique] is pending. *)
Definition reflected_w : World :=
  (run_step sample_runtime (Configurable sample_tid) (Some sample_init)
     (create_session sample_runtime 7 1 "Tea" 2 ["reflect"] (init None)).2).2.

Definition reflected_cp : Checkpoint := latest sample_tid reflected_w.

(** The world after somebody else has started a session while the sample
    session is paused. *)
Definition second_session_w : World :=
  (create_session sample_runtime 8 2 "Coffee" 1 [] sample_w1).2.

(** The world after a manual edit of the plan in the paused session. *)
Definition edited_w : World :=
  (update_state sample_runtime (Configurable sample_tid) k_plan
     "My own plan" "planner" sample_w1).2.

(** The result of a computation that returned, for the samples. *)
Definition result_of (r : (exn + StepResult.t) * World) : StepResult.t :=
  match r.1 with
  | inr res => res
  | inl _ => StepResult.Make false None None None None None
  end.

(** What the first [run_step] of the sample session reported. *)
Definition sample_res : StepResult.t :=
  result_of (run_step sample_runtime (Configurable sample_tid)
               (Some sample_init) sample_w0).

(** A session with revision limit 0 pausing after [research_plan]: the
    world after its first [run_step], where the only [generate] step is
    pending. *)
Definition short_init : AgentState :=
  Dict (Some "Tea") (Some "") (Some "") (Some "") (Some "")
       (Some []) (Some []) (Some 0) (Some 0) (Some 0)
       (Some (Some 7)) (Some (Some 1)) (Some (Some sample_tid)).

Definition short_w0 : World :=
  (create_session sample_runtime 7 1 "Tea" 0 ["research_plan"]
     (init None)).2.

Definition short_w : World :=
  (run_step sample_runtime (Configurable sample_tid) (Some short_init)
     short_w0).2.

Definition short_cp : Checkpoint := latest sample_tid short_w.

Definition short_cp1 : Checkpoint :=
  checkpoint_of (superstep sample_graph sample_tid short_cp short_w).

Definition short_w1 : World :=
  (superstep sample_graph sample_tid short_cp short_w).2.

(** The sample session on the writer whose model is down: the world after
    its first [run_step], which failed in [planner]. *)
Definition failed_w : World :=
  (run_step failing_runtime (Configurable sample_tid) (Some sample_init)
     (create_session failing_runtime 7 1 "Tea" 2 [] (init None)).2).2.

Definition failed_res : StepResult.t :=
  result_of (run_step failing_runtime (Configurable sample_tid) None
               failed_w).

Definition failed_w1 : World :=
  (run_step failing_runtime (Configurable sample_tid) None failed_w).2.

(** Providers whose search refuses the query ["q2"]. *)
Definition flaky_runtime : Runtime := {|
  model_invoke := model_invoke sample_runtime;
  structured_invoke := structured_invoke sample_runtime;
  tavily_search := fun i q n =>
    if String.eqb q "q2" then inl (Exception "HTTPError" "429 Too Many Requests")
    else tavily_search sample_runtime i q n;
  utcnow := utcnow sample_runtime;
  uuid4 := uuid4 sample_runtime;
  repr := repr sample_runtime;
  recursion_limit := recursion_limit sample_runtime;
  recursion_error := recursion_error sample_runtime
|}.

(** A writer with a database holding the essay of the sample session. *)
Definition sample_row : Essay.t :=
  Essay.Row "Essay: Tea..." "Tea" None None None None "in_progress" 1 0 0
            None.

Definition sample_db : gmap Z Essay.t := {[1 := sample_row]}.

Definition db_w : World := init (Some sample_db).

(** A state in which a draft is to be written, and one whose revision
    number exceeds the limit. *)
Definition drafting : AgentState :=
  Dict (Some "Tea") (Some "research_plan") (Some "Outline") (Some "")
       (Some "") (Some ["about q1"]) (Some ["q1"]) (Some 0) (Some 2)
       (Some 2) (Some (Some 7)) (Some (Some 1)) (Some (Some sample_tid)).

Definition finished : AgentState :=
  Dict (Some "Tea") (Some "generate") (Some "Outline") (Some "Third draft")
       (Some "Remarks") (Some ["about q1"]) (Some ["q1"]) (Some 3) (Some 2)
       (Some 9) (Some (Some 7)) (Some (Some 1)) (Some (Some sample_tid)).

(** ** Vocabulary of the statements *)

(** The values that [get_state] reports for a thread. *)
Definition reported_values (tid : string) (w : World) : AgentState :=
  match history tid w with
  | cp :: _ => values cp
  | [] => dict0
  end.

(** A computation that leaves [self.graph] alone, whatever its outcome. *)
Definition keeps_graph {A} (c : M A) : Prop :=
  forall w r w', c w = (r, w') -> self_graph w' = self_graph w.

(** What a node named [n] returns when it runs on state [s] and does not
    raise: the dictionary of its [return] statement. *)
Inductive node_update (s : AgentState) : string -> AgentState -> Prop :=
  | upd_planner r :
      node_update s "planner"
        (dict0 .[k_plan ↦ r] .[k_lnode ↦ "planner"] .[k_count ↦ 1])
  | upd_research_plan c added qs :
      content s = Some c ->
      node_update s "research_plan"
        (dict0 .[k_content ↦ (c ++ added)%list] .[k_queries ↦ qs]
               .[k_lnode ↦ "research_plan"] .[k_count ↦ 1])
  | upd_generate r :
      node_update s "generate"
        (dict0 .[k_draft ↦ r] .[k_revision_number ↦ next_revision s]
               .[k_lnode ↦ "generate"] .[k_count ↦ 1])
  | upd_reflect r :
      node_update s "reflect"
        (dict0 .[k_critique ↦ r] .[k_lnode ↦ "reflect"] .[k_count ↦ 1])
  | upd_research_critique c added :
      content s = Some c ->
      node_update s "research_critique"
        (dict0 .[k_content ↦ (c ++ added)%list]
               .[k_lnode ↦ "research_critique"] .[k_count ↦ 1]).

(** A pause-point list that [_build_graph] rejects: it is not empty and
    names something that is not a node of the graph. *)
Definition invalid_pause_points (interrupt_after : list string) : Prop :=
  interrupt_after ≠ [] /\
  exists n, n ∈ interrupt_after /\ n ∉
    ["planner"; "research_plan"; "generate"; "reflect"; "research_critique"].

(** The edges of the fixed machine. *)
Definition transitions : list (string * string) :=
  [("planner", "research_plan"); ("research_plan", "generate");
   ("generate", "reflect"); ("reflect", "research_critique");
   ("research_critique", "generate")].

(** The five step names. *)
Definition five_nodes : list string :=
  ["planner"; "research_plan"; "generate"; "reflect"; "research_critique"].

(** The keys of the dictionary that node [n] returns. *)
Definition writes (n : string) : list Key :=
  if decide (n = "planner") then [k_plan; k_lnode; k_count]
  else if decide (n = "research_plan")
  then [k_content; k_queries; k_lnode; k_count]
  else if decide (n = "generate")
  then [k_draft; k_revision_number; k_lnode; k_count]
  else if decide (n = "reflect") then [k_critique; k_lnode; k_count]
  else if decide (n = "research_critique")
  then [k_content; k_lnode; k_count]
  else [].

(** The keys that the nodes and the conditional edge read with
    [state[...]] are bound. *)
Definition session_state (s : AgentState) : Prop :=
  is_Some (task s) /\ is_Some (plan s) /\ is_Some (draft s) /\
  is_Some (critique s) /\ is_Some (content s) /\
  is_Some (revision_number s) /\ is_Some (max_revisions s).

(** The model and the search service answer every request. *)
Definition providers_answer (R : Runtime) : Prop :=
  (forall i messages, exists r, model_invoke R i messages = inr r) /\
  (forall i messages, exists r, structured_invoke R i messages = inr r) /\
  (forall i q n, exists r, tavily_search R i q n = inr r).

(** The snippets found for the queries [qs] when the first search is call
    number [i] and every search answers. *)
Fixpoint found_from (R : Runtime) (i : nat) (qs : list string)
    : list string :=
  match qs with
  | [] => []
  | q :: rest =>
      match tavily_search R i q 2 with
      | inr results => (results ++ found_from R (S i) rest)%list
      | inl _ => []
      end
  end.

(** How the state [s'] at the end of a run relates to the state [s] it
    started from. *)
Definition advances (s s' : AgentState) : Prop :=
  task s' = task s /\ max_revisions s' = max_revisions s /\
  user_id s' = user_id s /\ essay_id s' = essay_id s /\
  session_id s' = session_id s /\
  (exists added, content s' = (fun c => c ++ added)%list <$> content s) /\
  (forall r, revision_number s = Some r ->
     exists r', revision_number s' = Some r' /\ r <= r') /\
  (forall c, count s = Some c -> exists c', count s' = Some c' /\ c <= c').

(** How the essay table of world [w'] relates to the one of [w] when only
    the row [i] may have been written: a writer without database still has
    none; otherwise the same rows exist and all rows but [i] are as they
    were. *)
Definition db_kept (i : option Z) (w w' : World) : Prop :=
  match self_db w with
  | None => self_db w' = None
  | Some db =>
      exists db', self_db w' = Some db' /\ dom db' = dom db /\
                  forall j, i ≠ Some j -> db' !! j = db !! j
  end.

(** A computation that keeps the essay table, the row [i] apart, whatever
    its outcome. *)
Definition keeps_db {A} (i : option Z) (c : M A) : Prop :=
  forall w r w', c w = (r, w') -> db_kept i w w'.

(** A state of a running session: the keys read by the nodes are bound,
    with revision number [r], revision limit [m] and step count [c]. *)
Definition running (s : AgentState) (r m c : Z) : Prop :=
  session_state s /\ revision_number s = Some r /\
  max_revisions s = Some m /\ count s = Some c.






(** * Properties *)

(** ** Reasoning about computations *)

Lemma bind_inr {A B} (c : M A) (k : A -> M B) w b w' :
  bind c k w = (inr b, w') ->
  exists a w1, c w = (inr a, w1) /\ k a w1 = (inr b, w').
Proof.
  unfold bind. destruct (c w) as [[e|a] w1]; [discriminate|]. eauto.
Qed.

Lemma bind_inl {A B} (c : M A) (k : A -> M B) w e w' :
  bind c k w = (inl e, w') ->
  c w = (inl e, w') \/ exists a w1, c w = (inr a, w1) /\ k a w1 = (inl e, w').
Proof.
  unfold bind. destruct (c w) as [[e1|a] w1]; intros H.
  - left. by simplify_eq.
  - right. eauto.
Qed.

Lemma bind_run {A B} (c : M A) (k : A -> M B) w a w1 :
  c w = (inr a, w1) -> bind c k w = k a w1.
Proof. unfold bind. by intros ->. Qed.

Lemma bind_fail {A B} (c : M A) (k : A -> M B) w e w1 :
  c w = (inl e, w1) -> bind c k w = (inl e, w1).
Proof. unfold bind. by intros ->. Qed.

Lemma getitem_inr k d w v w' :
  getitem k d w = (inr v, w') -> lookup_key k d = Some v /\ w' = w.
Proof.
  unfold getitem. destruct (lookup_key k d); cbn; intros [= ]; subst; auto.
Qed.

Lemma getitem_some k d w v :
  lookup_key k d = Some v -> getitem k d w = (inr v, w).
Proof. unfold getitem. by intros ->. Qed.

Lemma call_inr {A} (f : nat -> exn + A) w a w' :
  call f w = (inr a, w') -> f (calls w) = inr a /\ w' = tick w.
Proof. unfold call. intros [= ]; auto. Qed.

Lemma keeps_graph_ret {A} (a : A) : keeps_graph (ret a).
Proof. by intros w r w' [= ]; subst. Qed.

Lemma keeps_graph_raise {A} e : keeps_graph (@raise A e).
Proof. by intros w r w' [= ]; subst. Qed.

Lemma keeps_graph_bind {A B} (c : M A) (k : A -> M B) :
  keeps_graph c -> (forall a, keeps_graph (k a)) -> keeps_graph (bind c k).
Proof.
  intros Hc Hk w r w'. unfold bind.
  destruct (c w) as [[e|a] w1] eqn:E.
  - intros [= ]; subst. eauto.
  - intros Hka. rewrite (Hk _ _ _ _ Hka). eauto.
Qed.

Lemma keeps_graph_getitem k d : keeps_graph (getitem k d).
Proof.
  unfold getitem. destruct (lookup_key k d);
    [apply keeps_graph_ret | apply keeps_graph_raise].
Qed.

Lemma keeps_graph_call {A} (f : nat -> exn + A) : keeps_graph (call f).
Proof. by intros w r w' [= ]; subst. Qed.

Lemma keeps_graph_if {A} (b : bool) (c1 c2 : M A) :
  keeps_graph c1 -> keeps_graph c2 -> keeps_graph (if b then c1 else c2).
Proof. by destruct b. Qed.

Create HintDb frame.
#[local] Hint Resolve keeps_graph_ret keeps_graph_raise keeps_graph_getitem
  keeps_graph_call keeps_graph_if : frame.
#[local] Hint Extern 2 (keeps_graph (bind _ _)) =>
  apply keeps_graph_bind; [|intros ?] : frame.

Section NodeFacts.

Variable R : Runtime.

Lemma save_essay_inr s n ch w r w' :
  save_essay R s n ch w = (r, w') ->
  r = inr tt /\ self_graph w' = self_graph w.
Proof.
  unfold save_essay.
  destruct (self_db w) as [db|]; [|by intros [= ]; subst].
  destruct (truthy_id s) as [i|]; [|by intros [= ]; subst].
  destruct (db !! i); by intros [= ]; subst.
Qed.

Lemma keeps_graph_save_essay s n ch : keeps_graph (save_essay R s n ch).
Proof. intros w r w' H. by apply save_essay_inr in H as [_ ?]. Qed.

Lemma keeps_graph_search_all qs c : keeps_graph (search_all R qs c).
Proof.
  revert c. induction qs as [|q qs IH]; intros c; cbn [search_all];
    eauto with frame.
Qed.

Lemma search_all_inr qs c w c' w' :
  search_all R qs c w = (inr c', w') -> exists added, c' = (c ++ added)%list.
Proof.
  revert c w. induction qs as [|q qs IH]; intros c w; cbn [search_all].
  - intros [= ]; subst. exists []. by rewrite app_nil_r.
  - intros H. apply bind_inr in H as (rs & w1 & _ & H).
    apply IH in H as [added ->]. exists (rs ++ added)%list.
    by rewrite app_assoc.
Qed.

#[local] Hint Resolve keeps_graph_save_essay keeps_graph_search_all : frame.

Lemma keeps_graph_plan_node s : keeps_graph (plan_node R s).
Proof. unfold plan_node. eauto 10 with frame. Qed.

Lemma keeps_graph_research_plan_node s : keeps_graph (research_plan_node R s).
Proof. unfold research_plan_node. eauto 10 with frame. Qed.

Lemma keeps_graph_generation_node s : keeps_graph (generation_node R s).
Proof. unfold generation_node. eauto 12 with frame. Qed.

Lemma keeps_graph_reflection_node s : keeps_graph (reflection_node R s).
Proof. unfold reflection_node. eauto 10 with frame. Qed.

Lemma keeps_graph_research_critique_node s :
  keeps_graph (research_critique_node R s).
Proof. unfold research_critique_node. eauto 10 with frame. Qed.

Lemma keeps_graph_should_continue s : keeps_graph (should_continue R s).
Proof. unfold should_continue. eauto 10 with frame. Qed.

(** *** What each node returns *)

Ltac step_in H :=
  let a := fresh "a" in
  let w1 := fresh "w" in
  let H1 := fresh "H" in
  apply bind_inr in H as (a & w1 & H1 & H).

Lemma plan_node_inr s w u w' :
  plan_node R s w = (inr u, w') -> node_update s "planner" u.
Proof.
  unfold plan_node. intros H. do 3 step_in H.
  injection H as <- _. constructor.
Qed.

Lemma research_plan_node_inr s w u w' :
  research_plan_node R s w = (inr u, w') ->
  node_update s "research_plan" u /\
  exists topic, task s = Some topic /\
    inr (default [] (queries u)) =
      structured_invoke R (calls w)
        [SystemMessage RESEARCH_PLAN_PROMPT; HumanMessage topic].
Proof.
  unfold research_plan_node. intros H.
  step_in H. apply getitem_inr in H0 as [Htask ->].
  step_in H. apply call_inr in H0 as [Hqs ->].
  step_in H. apply getitem_inr in H0 as [Hc ->].
  step_in H. apply search_all_inr in H0 as [added ->].
  injection H as <- _. split; [by constructor|].
  exists a. split; [done|]. by rewrite Hqs.
Qed.

Lemma generation_node_inr s w u w' :
  generation_node R s w = (inr u, w') -> node_update s "generate" u.
Proof.
  unfold generation_node. intros H. do 5 step_in H.
  injection H as <- _. constructor.
Qed.

Lemma reflection_node_inr s w u w' :
  reflection_node R s w = (inr u, w') -> node_update s "reflect" u.
Proof.
  unfold reflection_node. intros H. do 3 step_in H.
  injection H as <- _. constructor.
Qed.

Lemma research_critique_node_inr s w u w' :
  research_critique_node R s w = (inr u, w') ->
  node_update s "research_critique" u.
Proof.
  unfold research_critique_node. intros H.
  do 2 step_in H.
  step_in H. apply getitem_inr in H2 as [Hc ->].
  step_in H. apply search_all_inr in H2 as [added ->].
  injection H as <- _. by constructor.
Qed.

End NodeFacts.

Section EngineFacts.

Variable R : Runtime.

#[local] Abbreviation g := (self_builder R).

#[local] Hint Resolve keeps_graph_save_essay keeps_graph_search_all
  keeps_graph_plan_node keeps_graph_research_plan_node
  keeps_graph_generation_node keeps_graph_reflection_node
  keeps_graph_research_critique_node keeps_graph_should_continue : frame.

(** *** The graph that was built *)

Lemma node_names_self_builder : node_names g = five_nodes.
Proof. reflexivity. Qed.

Lemma entry_point_self_builder : entry_point g = Some "planner".
Proof. reflexivity. Qed.

Lemma assoc_nodes n action :
  assoc n (nodes g) = Some action ->
  (n = "planner" /\ action = plan_node R) \/
  (n = "research_plan" /\ action = research_plan_node R) \/
  (n = "generate" /\ action = generation_node R) \/
  (n = "reflect" /\ action = reflection_node R) \/
  (n = "research_critique" /\ action = research_critique_node R).
Proof.
  cbn. repeat case_decide; intros [= <-]; subst; tauto.
Qed.

Lemma run_branches_generate s :
  run_branches (branches g) "generate" s =
  (let* r := should_continue R s in
   match assoc r [(END, END); ("reflect", "reflect")] with
   | Some target => let* others := ret [] in ret (target :: others)
   | None => raise (Exception "KeyError" ("'" +:+ r +:+ "'"))
   end).
Proof. reflexivity. Qed.

Lemma run_branches_other n s :
  n ≠ "generate" -> run_branches (branches g) n s = ret [].
Proof. intros Hn. cbn. case_decide; [congruence | done]. Qed.

(** *** The conditional edge *)

Lemma should_continue_some s w rev lim :
  revision_number s = Some rev -> max_revisions s = Some lim ->
  exists w',
    should_continue R s w = (inr (if (rev >? lim)%Z then END else "reflect"), w')
    /\ self_graph w' = self_graph w.
Proof.
  intros Hr Hl. unfold should_continue.
  rewrite (bind_run _ _ w rev w) by by apply (getitem_some k_revision_number).
  rewrite (bind_run _ _ w lim w) by by apply (getitem_some k_max_revisions).
  destruct (rev >? lim)%Z; [|by eexists].
  destruct (save_essay R s 2 (fun clock e =>
      Essay.Row (Essay.title e) (Essay.topic e) (Essay.plan e) (Essay.draft e)
        (Essay.critique e) (draft s) "completed"
        (Essay.revision_number e) (Essay.word_count e) (clock 1%nat)
        (Some (clock 0%nat))) w) as [r w1] eqn:E.
  pose proof (save_essay_inr _ _ _ _ _ _ _ E) as [-> Hg].
  exists w1. split; [|done]. unfold bind. by rewrite E.
Qed.

Lemma should_continue_inr s w r w' :
  should_continue R s w = (inr r, w') ->
  exists rev lim,
    revision_number s = Some rev /\ max_revisions s = Some lim /\
    r = if (rev >? lim)%Z then END else "reflect".
Proof.
  intros H. pose proof H as H'. unfold should_continue in H.
  apply bind_inr in H as (rev & w1 & Hr & H).
  apply getitem_inr in Hr as [Hr ->].
  apply bind_inr in H as (lim & w2 & Hl & H).
  apply getitem_inr in Hl as [Hl ->].
  exists rev, lim. split; [done|]. split; [done|].
  destruct (should_continue_some s w rev lim Hr Hl) as (w3 & E & _).
  congruence.
Qed.

(** *** Successors *)

Lemma successors_planner s w :
  successors g "planner" s w = (inr ["research_plan"], w).
Proof. reflexivity. Qed.

Lemma successors_research_plan s w :
  successors g "research_plan" s w = (inr ["generate"], w).
Proof. reflexivity. Qed.

Lemma successors_reflect s w :
  successors g "reflect" s w = (inr ["research_critique"], w).
Proof. reflexivity. Qed.

Lemma successors_research_critique s w :
  successors g "research_critique" s w = (inr ["generate"], w).
Proof. reflexivity. Qed.

Lemma successors_generate s w :
  successors g "generate" s w =
  match should_continue R s w with
  | (inr r, w') => (inr (if decide (r = END) then [] else ["reflect"]), w')
  | (inl e, w') => (inl e, w')
  end.
Proof.
  unfold successors. rewrite run_branches_generate.
  destruct (should_continue R s w) as [[e|r] w'] eqn:E.
  - unfold bind at 1. unfold bind at 1. by rewrite E.
  - apply should_continue_inr in E as E'.
    destruct E' as (rev & lim & _ & _ & ->).
    unfold bind at 1. unfold bind at 1. rewrite E.
    by destruct (rev >? lim)%Z.
Qed.

Lemma keeps_graph_successors n s : keeps_graph (successors g n s).
Proof.
  intros w r w'.
  destruct (decide (n = "generate")) as [->|Hn].
  - rewrite successors_generate.
    destruct (should_continue R s w) as [[e|t] w1] eqn:E;
      intros [= ]; subst; by eapply keeps_graph_should_continue.
  - unfold successors. rewrite run_branches_other by done.
    by intros [= ]; subst.
Qed.

Lemma successors_inr n s w sched w' :
  successors g n s w = (inr sched, w') ->
  forall t, t ∈ sched -> (n, t) ∈ transitions.
Proof.
  destruct (decide (n = "generate")) as [->|Hn].
  - rewrite successors_generate.
    destruct (should_continue R s w) as [[e|r] w1]; [discriminate|].
    intros [= <- ?] t. unfold transitions.
    case_decide; intros Ht; [by apply elem_of_nil in Ht|].
    apply list_elem_of_singleton in Ht as ->. by repeat constructor.
  - unfold successors. rewrite run_branches_other by done.
    intros [= <- ?] t. cbn. rewrite app_nil_r.
    unfold transitions. cbn.
    repeat (case_decide; cbn); subst; intros Ht; try discriminate;
      try (by apply elem_of_nil in Ht);
      apply list_elem_of_singleton in Ht as ->; by repeat constructor.
Qed.

(** *** One node, then all the pending nodes *)

Lemma run_task_inr s n w u sched w' :
  run_task g s n w = (inr (u, sched), w') ->
  node_update s n u /\ n ∈ five_nodes /\
  exists w1, successors g n (apply_writes s u) w1 = (inr sched, w').
Proof.
  unfold run_task. destruct (assoc n (nodes g)) as [action|] eqn:E;
    [|discriminate].
  intros H. apply bind_inr in H as (u' & w1 & Hu & H).
  apply bind_inr in H as (sched' & w2 & Hs & H).
  injection H as -> -> ->.
  apply assoc_nodes in E as
    [[-> ->]|[[-> ->]|[[-> ->]|[[-> ->]|[-> ->]]]]].
  - split; [by eapply plan_node_inr|]. split; [set_solver|eauto].
  - split; [by eapply research_plan_node_inr|]. split; [set_solver|eauto].
  - split; [by eapply generation_node_inr|]. split; [set_solver|eauto].
  - split; [by eapply reflection_node_inr|]. split; [set_solver|eauto].
  - split; [by eapply research_critique_node_inr|].
    split; [set_solver|eauto].
Qed.

Lemma keeps_graph_run_task s n : keeps_graph (run_task g s n).
Proof.
  unfold run_task. destruct (assoc n (nodes g)) as [action|] eqn:E;
    [|apply keeps_graph_raise].
  apply keeps_graph_bind.
  - apply assoc_nodes in E as
      [[-> ->]|[[-> ->]|[[-> ->]|[[-> ->]|[-> ->]]]]]; auto with frame.
  - intros u. apply keeps_graph_bind; [apply keeps_graph_successors|].
    intros ?. apply keeps_graph_ret.
Qed.

Lemma keeps_graph_run_tasks s pending : keeps_graph (run_tasks g s pending).
Proof.
  induction pending as [|n rest IH]; cbn [run_tasks].
  - apply keeps_graph_ret.
  - apply keeps_graph_bind; [apply keeps_graph_run_task|]. intros r.
    apply keeps_graph_bind; [apply IH|]. intros rs. apply keeps_graph_ret.
Qed.

Lemma run_tasks_inr s pending w results w' :
  run_tasks g s pending w = (inr results, w') ->
  Forall2 (node_update s) pending results.*1 /\
  Forall (fun n => n ∈ five_nodes) pending /\
  forall t, t ∈ concat results.*2 -> exists n, n ∈ pending /\ (n, t) ∈ transitions.
Proof.
  revert w results w'. induction pending as [|n rest IH];
    intros w results w'; cbn [run_tasks].
  - intros [= <- ?]. cbn. split; [constructor|]. split; [constructor|].
    set_solver.
  - intros H. apply bind_inr in H as ([u sched] & w1 & Hn & H).
    apply bind_inr in H as (rs & w2 & Hrest & H).
    injection H as <- _.
    apply run_task_inr in Hn as (Hu & Hin & w3 & Hs).
    apply IH in Hrest as (Hus & Hins & Hts).
    cbn. split; [by constructor|]. split; [by constructor|].
    intros t [Ht|Ht]%elem_of_app.
    + exists n. split; [by left|]. by eapply successors_inr.
    + destruct (Hts t Ht) as (m & ? & ?). exists m. split; [by right|done].
Qed.

(** *** Folding the updates into the channels *)

Lemma node_update_task s n u : node_update s n u -> task u = None.
Proof. by destruct 1. Qed.

Lemma node_update_revision s n u :
  node_update s n u ->
  revision_number u =
    if decide (n = "generate") then Some (next_revision s) else None.
Proof. by destruct 1. Qed.

Lemma node_update_content s n u :
  node_update s n u ->
  content u = None \/
  exists c added, content s = Some c /\ content u = Some (c ++ added)%list.
Proof. destruct 1; cbn; eauto. Qed.

Lemma node_update_queries s n u :
  node_update s n u -> n ≠ "research_plan" -> queries u = None.
Proof. by destruct 1. Qed.

Lemma node_update_lnode s n u : node_update s n u -> lnode u = Some n.
Proof. by destruct 1. Qed.

Lemma node_update_count s n u : node_update s n u -> count u = Some 1.
Proof. by destruct 1. Qed.

Lemma foldl_task s acc pending ups :
  Forall2 (node_update s) pending ups ->
  task (foldl apply_writes acc ups) = task acc.
Proof.
  intros H. revert acc. induction H as [|n u pending ups Hu _ IH];
    intros acc; cbn [foldl]; [done|].
  rewrite IH. cbn. by rewrite (node_update_task _ _ _ Hu).
Qed.

Lemma foldl_revision s acc pending ups :
  Forall2 (node_update s) pending ups ->
  revision_number (foldl apply_writes acc ups) =
    if bool_decide ("generate" ∈ pending) then Some (next_revision s)
    else revision_number acc.
Proof.
  intros H. revert acc. induction H as [|n u pending ups Hu _ IH];
    intros acc; cbn [foldl].
  - rewrite bool_decide_eq_false_2; [done|set_solver].
  - rewrite IH. cbn. rewrite (node_update_revision _ _ _ Hu).
    destruct (decide (n = "generate")) as [->|Hn].
    + rewrite (bool_decide_eq_true_2 ("generate" ∈ "generate" :: pending))
        by set_solver.
      by case_bool_decide.
    + cbn. case_bool_decide as Hp.
      * rewrite bool_decide_eq_true_2; [done|set_solver].
      * rewrite bool_decide_eq_false_2; [done|].
        intros [?|?]%elem_of_cons; congruence.
Qed.

Lemma foldl_content s acc pending ups :
  Forall2 (node_update s) pending ups ->
  (exists added, content acc = (fun c => c ++ added)%list <$> content s) ->
  exists added,
    content (foldl apply_writes acc ups) = (fun c => c ++ added)%list <$> content s.
Proof.
  intros H. revert acc. induction H as [|n u pending ups Hu _ IH];
    intros acc Hacc; cbn [foldl]; [done|].
  apply IH. cbn.
  destruct (node_update_content _ _ _ Hu) as [->|(c & added & Hc & ->)];
    cbn; [done|].
  exists added. by rewrite Hc.
Qed.

Lemma foldl_queries s acc pending ups :
  Forall2 (node_update s) pending ups ->
  "research_plan" ∉ pending ->
  queries (foldl apply_writes acc ups) = queries acc.
Proof.
  intros H. revert acc. induction H as [|n u pending ups Hu _ IH];
    intros acc Hp; cbn [foldl]; [done|].
  rewrite IH by set_solver. cbn.
  rewrite (node_update_queries _ _ _ Hu); [done|set_solver].
Qed.

(** *** Checkpoints and steps *)

Lemma put_checkpoint_spec tid cp w :
  exists w',
    put_checkpoint tid cp w = (inr tt, w') /\
    history tid w' = cp :: history tid w /\
    interrupt_after_nodes (self_graph w') = interrupt_after_nodes (self_graph w) /\
    self_db w' = self_db w /\ calls w' = calls w.
Proof.
  eexists. split; [reflexivity|]. cbn.
  split; [|done]. unfold history at 1. cbn. by rewrite lookup_insert_eq.
Qed.

Lemma history_keeps_graph tid w w' :
  self_graph w' = self_graph w -> history tid w' = history tid w.
Proof. unfold history. by intros ->. Qed.

Lemma superstep_inr tid cp w cp' w' :
  superstep g tid cp w = (inr cp', w') ->
  exists results w1,
    run_tasks g (values cp) (next cp) w = (inr results, w1) /\
    cp' = Snapshot (foldl apply_writes (values cp) results.*1)
                   (concat results.*2)
                   (Meta "loop" (step (metadata cp) + 1)) /\
    history tid w' = cp' :: history tid w /\
    interrupt_after_nodes (self_graph w') = interrupt_after_nodes (self_graph w).
Proof.
  unfold superstep. intros H.
  apply bind_inr in H as (results & w1 & Hr & H).
  apply bind_inr in H as ([] & w2 & Hp & H).
  injection H as <- <-.
  exists results, w1. split; [done|]. split; [done|].
  pose proof (keeps_graph_run_tasks _ _ _ _ _ Hr) as Hg.
  destruct (put_checkpoint_spec tid
              (Snapshot (foldl apply_writes (values cp) results.*1)
                 (concat results.*2) (Meta "loop" (step (metadata cp) + 1)))
              w1) as (w3 & Hp' & Hh & Hi & _).
  rewrite Hp in Hp'. injection Hp' as <-.
  rewrite Hh, Hi, Hg. by rewrite (history_keeps_graph tid w w1 Hg).
Qed.

Lemma superstep_inl tid cp w e w' :
  superstep g tid cp w = (inl e, w') -> self_graph w' = self_graph w.
Proof.
  unfold superstep. intros H.
  apply bind_inl in H as [H|(results & w1 & Hr & H)].
  - by eapply keeps_graph_run_tasks.
  - apply bind_inl in H as [H|(? & ? & _ & H)]; discriminate.
Qed.

(** A step runs nodes of the graph only, and schedules along its edges. *)
Lemma superstep_next tid cp w cp' w' :
  superstep g tid cp w = (inr cp', w') ->
  Forall (fun n => n ∈ five_nodes) (next cp) /\
  forall t, t ∈ next cp' -> exists n, n ∈ next cp /\ (n, t) ∈ transitions.
Proof.
  intros H. apply superstep_inr in H as (results & w1 & Hr & -> & _).
  apply run_tasks_inr in Hr as (_ & Hin & Ht). by split.
Qed.

(** C7: no step of the workflow changes [task].  Whatever nodes are pending
    in checkpoint [cp], if the step from [cp] completes with checkpoint
    [cp'], the [task] entry of [cp']'s values is the one of [cp]'s. *)
Theorem task_immutable tid cp w cp' w' :
  superstep g tid cp w = (inr cp', w') ->
  task (values cp') = task (values cp).
Proof.
  intros H. apply superstep_inr in H as (results & w1 & Hr & -> & _).
  apply run_tasks_inr in Hr as (Hups & _). cbn.
  by eapply foldl_task.
Qed.

(** C2: [revision_number] never decreases in a step.  A step that runs
    [generate] sets it to [state.get("revision_number", 1) + 1], which is
    the old value plus one when the key is bound; a step that runs other
    nodes only leaves it as it was. *)
Theorem revision_number_monotone tid cp w cp' w' :
  superstep g tid cp w = (inr cp', w') ->
  revision_number (values cp') =
    (if bool_decide ("generate" ∈ next cp)
     then Some (default 1 (revision_number (values cp)) + 1)
     else revision_number (values cp)) /\
  (forall r, revision_number (values cp) = Some r ->
     ("generate" ∈ next cp -> revision_number (values cp') = Some (r + 1)) /\
     ("generate" ∉ next cp -> revision_number (values cp') = Some r) /\
     exists r', revision_number (values cp') = Some r' /\ r <= r').
Proof.
  intros H. apply superstep_inr in H as (results & w1 & Hr & -> & _).
  apply run_tasks_inr in Hr as (Hups & _). cbn.
  rewrite (foldl_revision _ _ _ _ Hups). unfold next_revision.
  split; [done|]. intros r Hrev. rewrite Hrev. cbn.
  case_bool_decide as Hg.
  - split; [done|]. split; [done|]. exists (r + 1). split; [done|lia].
  - split; [done|]. split; [done|]. exists r. split; [done|lia].
Qed.

(** C3: [content] is append-only.  If the step from [cp] completes with
    [cp'], the [content] list of [cp'] is the one of [cp] followed by the
    snippets added in the step (none when no research node ran); the key is
    absent after the step exactly when it was absent before. *)
Theorem content_append_only tid cp w cp' w' :
  superstep g tid cp w = (inr cp', w') ->
  (exists added,
     content (values cp') =
       (fun c => c ++ added)%list <$> content (values cp)) /\
  default [] (content (values cp)) `prefix_of`
    default [] (content (values cp')).
Proof.
  intros H. apply superstep_inr in H as (results & w1 & Hr & -> & _).
  apply run_tasks_inr in Hr as (Hups & _). cbn.
  assert (exists added,
    content (foldl apply_writes (values cp) results.*1) =
      (fun c => c ++ added)%list <$> content (values cp)) as [added Hadd].
  { eapply foldl_content; [done|]. exists [].
    destruct (content (values cp)); cbn; [|done]. by rewrite app_nil_r. }
  split; [by exists added|]. rewrite Hadd.
  destruct (content (values cp)); cbn; [by exists added|done].
Qed.

(** C1: on a state where [revision_number] and [max_revisions] are bound,
    as after every [generate] step of a session, [should_continue] returns
    [END] exactly when [revision_number > max_revisions] and ["reflect"]
    otherwise; accordingly nothing is scheduled after [generate] exactly
    when [revision_number > max_revisions], and [reflect] is scheduled
    otherwise. *)
Theorem should_continue_end_iff s w rev lim :
  revision_number s = Some rev -> max_revisions s = Some lim ->
  ((should_continue R s w).1 = inr END <-> lim < rev) /\
  ((should_continue R s w).1 = inr "reflect" <-> rev <= lim) /\
  ((successors g "generate" s w).1 = inr [] <-> lim < rev) /\
  ((successors g "generate" s w).1 = inr ["reflect"] <-> rev <= lim).
Proof.
  intros Hr Hl. rewrite successors_generate.
  destruct (should_continue_some s w rev lim Hr Hl) as (w' & -> & _).
  destruct (Z.gtb_spec rev lim) as [Hgt|Hle]; cbn.
  - repeat split; intros H; try done; try lia.
  - repeat split; intros H; try done; try lia.
Qed.

(** C6: the graph is the fixed machine.  The entry point is [planner]; the
    nodes are the five steps; [planner] is followed by [research_plan],
    [research_plan] by [generate], [reflect] by [research_critique],
    [research_critique] by [generate]; [generate] is followed by what
    [should_continue] decides, [reflect] or nothing; no node has any other
    successor, and a step of the engine runs nodes of the graph only and
    schedules along these edges only. *)
Theorem fixed_state_machine :
  entry_point g = Some "planner" /\
  node_names g = five_nodes /\
  (forall s w, successors g "planner" s w = (inr ["research_plan"], w)) /\
  (forall s w, successors g "research_plan" s w = (inr ["generate"], w)) /\
  (forall s w, successors g "reflect" s w = (inr ["research_critique"], w)) /\
  (forall s w, successors g "research_critique" s w = (inr ["generate"], w)) /\
  (forall s w,
     successors g "generate" s w =
       match should_continue R s w with
       | (inr r, w') => (inr (if decide (r = END) then [] else ["reflect"]), w')
       | (inl e, w') => (inl e, w')
       end) /\
  (forall s w r w',
     should_continue R s w = (inr r, w') -> r = END \/ r = "reflect") /\
  (forall n s w sched w' t,
     successors g n s w = (inr sched, w') -> t ∈ sched ->
     (n, t) ∈ transitions) /\
  (forall tid cp w cp' w',
     superstep g tid cp w = (inr cp', w') ->
     Forall (fun n => n ∈ five_nodes) (next cp) /\
     forall t, t ∈ next cp' ->
       exists n, n ∈ next cp /\ (n, t) ∈ transitions).
Proof.
  split; [done|]. split; [done|].
  split; [apply successors_planner|].
  split; [apply successors_research_plan|].
  split; [apply successors_reflect|].
  split; [apply successors_research_critique|].
  split; [apply successors_generate|].
  split.
  { intros s w r w' H.
    apply should_continue_inr in H as (rev & lim & _ & _ & ->).
    destruct (rev >? lim)%Z; auto. }
  split.
  { intros n s w sched w' t H. by eapply successors_inr. }
  intros tid cp w cp' w' H. by eapply superstep_next.
Qed.

(** *** The loop *)

Lemma pregel_loop_out pause tid cp w :
  pregel_loop R g pause tid 0 cp w =
  (inl (Exception "GraphRecursionError" (recursion_error R)), w).
Proof. done. Qed.

Lemma pregel_loop_done pause tid fuel cp w :
  next cp = [] ->
  pregel_loop R g pause tid (S fuel) cp w = (inr (values cp), w).
Proof. intros H. cbn. by rewrite H. Qed.

Lemma pregel_loop_step pause tid fuel cp w :
  next cp ≠ [] ->
  pregel_loop R g pause tid (S fuel) cp w =
  match superstep g tid cp w with
  | (inl e, w1) => (inl e, w1)
  | (inr cp1, w1) =>
      if existsb (fun n => bool_decide (n ∈ pause)) (next cp)
      then (inr (values cp1), w1)
      else pregel_loop R g pause tid fuel cp1 w1
  end.
Proof.
  intros H. cbn [pregel_loop]. destruct (next cp) as [|n rest]; [done|].
  unfold bind at 1. destruct (superstep g tid cp w) as [[e|cp1] w1]; [done|].
  by destruct (existsb _ _).
Qed.

(** The loop only adds checkpoints to the thread, and what it returns are
    the values of the thread's last checkpoint. *)
Lemma pregel_loop_history pause tid fuel cp w r w' :
  pregel_loop R g pause tid fuel cp w = (r, w') ->
  (exists added, history tid w' = (added ++ history tid w)%list) /\
  interrupt_after_nodes (self_graph w') = interrupt_after_nodes (self_graph w) /\
  (forall v, r = inr v -> latest tid w = cp -> history tid w ≠ [] ->
             values (latest tid w') = v).
Proof.
  revert cp w. induction fuel as [|fuel IH]; intros cp w.
  - rewrite pregel_loop_out. intros [= <- <-].
    split; [by exists []|]. split; [done|]. done.
  - destruct (next cp) as [|n rest] eqn:En.
    { rewrite pregel_loop_done by done. intros [= <- <-].
      split; [by exists []|]. split; [done|]. by intros v [= <-] ->. }
    rewrite pregel_loop_step by by rewrite En.
    destruct (superstep g tid cp w) as [[e|cp1] w1] eqn:Es.
    { intros [= <- <-]. apply superstep_inl in Es.
      rewrite (history_keeps_graph tid w w1 Es), Es.
      split; [by exists []|]. split; [done|]. done. }
    apply superstep_inr in Es as (results & w0 & _ & _ & Hh & Hi).
    assert (latest tid w1 = cp1) as Hl1 by (unfold latest; by rewrite Hh).
    destruct (existsb _ _).
    + intros [= <- <-]. split; [by exists [cp1]|]. split; [done|].
      intros v [= <-] _ _. by rewrite Hl1.
    + intros H. apply IH in H as ([added Ha] & Hi' & Hv).
      split; [|split].
      * exists (added ++ [cp1])%list. rewrite Ha, Hh. by rewrite <- app_assoc.
      * by rewrite Hi'.
      * intros v -> _ _. apply Hv; [done|done|]. by rewrite Hh.
Qed.

(** *** [run_step] *)

Lemma invoke_resume tid w cp past :
  history tid w = cp :: past ->
  invoke R g None tid w =
  pregel_loop R g (default [] (interrupt_after_nodes (self_graph w))) tid
    (recursion_limit R + 2) cp w.
Proof. intros H. unfold invoke, get_world, bind. by rewrite H. Qed.

(** The thread of an [invoke] that returned has a checkpoint. *)
Lemma invoke_inr_history input tid w resp w1 :
  invoke R g input tid w = (inr resp, w1) -> history tid w1 ≠ [].
Proof.
  unfold invoke, get_world. unfold bind at 1.
  destruct input as [i|].
  - unfold bind at 1. cbn [put_checkpoint]. unfold bind at 1.
    cbn [put_checkpoint]. intros H.
    apply pregel_loop_history in H as ([added Ha] & _). rewrite Ha.
    unfold history at 1. cbn. rewrite lookup_insert_eq. cbn.
    by destruct added.
  - destruct (history tid w) as [|cp past] eqn:Eh; [done|]. intros H.
    apply pregel_loop_history in H as ([added Ha] & _). rewrite Ha, Eh.
    by destruct added.
Qed.

Lemma get_state_some tid w cp past :
  history tid w = cp :: past ->
  get_state tid w =
  (inr (StateSnapshot.Make (values cp) (next cp) (Some (metadata cp))), w).
Proof. intros H. unfold get_state, get_world, bind. by rewrite H. Qed.

Lemma get_state_none tid w :
  history tid w = [] ->
  get_state tid w = (inr (StateSnapshot.Make dict0 [] None), w).
Proof. intros H. unfold get_state, get_world, bind. by rewrite H. Qed.

Lemma run_step_unfold cfg input w :
  run_step R cfg input w =
  match invoke R g input (thread_id cfg) w with
  | (inl e, w1) =>
      (inr (StepResult.Make false None (Some (msg e)) None None None), w1)
  | (inr resp, w1) =>
      let cp := latest (thread_id cfg) w1 in
      (inr (StepResult.Make true (Some resp) None (Some (values cp))
              (Some (next cp)) (Some (metadata cp))), w1)
  end.
Proof.
  unfold run_step, try_except. unfold bind at 1.
  destruct (invoke R g input (thread_id cfg) w) as [[e|resp] w1] eqn:Ei;
    [done|].
  apply invoke_inr_history in Ei.
  destruct (history (thread_id cfg) w1) as [|cp past] eqn:Eh; [done|].
  unfold bind. rewrite (get_state_some _ _ _ _ Eh). cbn.
  unfold latest. by rewrite Eh.
Qed.

(** C8: [run_step] never raises.  When the engine's [invoke] raises, be it
    the engine's own failure or one of a node calling the model or the
    search service, the result is the dictionary with [success] false, the
    message of the exception, and [current_state] and [next_node] [None];
    when [invoke] returns, the result has [success] true, the response, and
    the values, next nodes and metadata of the thread's last checkpoint. *)
Theorem run_step_never_raises cfg input w :
  (exists r w', run_step R cfg input w = (inr r, w')) /\
  (forall e w1,
     invoke R g input (thread_id cfg) w = (inl e, w1) ->
     run_step R cfg input w =
       (inr (StepResult.Make false None (Some (msg e)) None None None), w1)) /\
  (forall resp w1,
     invoke R g input (thread_id cfg) w = (inr resp, w1) ->
     run_step R cfg input w =
       (inr (StepResult.Make true (Some resp) None
               (Some (values (latest (thread_id cfg) w1)))
               (Some (next (latest (thread_id cfg) w1)))
               (Some (metadata (latest (thread_id cfg) w1)))), w1)).
Proof.
  rewrite run_step_unfold.
  destruct (invoke R g input (thread_id cfg) w) as [[e|resp] w1].
  - split; [eauto|]. split; [|done]. by intros ? ? [= <- <-].
  - split; [eauto|]. split; [done|]. by intros ? ? [= <- <-].
Qed.

(** *** Pausing and resuming *)

Lemma transitions_irrefl n m : (n, m) ∈ transitions -> n ≠ m.
Proof.
  unfold transitions. rewrite !elem_of_cons, elem_of_nil.
  intros [H|[H|[H|[H|[H|[]]]]]]; injection H as -> ->; discriminate.
Qed.

Lemma successors_at_most_one n s w sched w' :
  successors g n s w = (inr sched, w') ->
  sched = [] \/ exists m, sched = [m] /\ (n, m) ∈ transitions.
Proof.
  intros H. pose proof (successors_inr _ _ _ _ _ H) as Ht. revert H.
  destruct (decide (n = "generate")) as [->|Hn].
  - rewrite successors_generate.
    destruct (should_continue R s w) as [[e|r] w1]; [discriminate|].
    case_decide; intros [= <- ?]; [by left|].
    right. exists "reflect". split; [done|]. apply Ht. by left.
  - unfold successors. rewrite run_branches_other by done.
    intros [= <- ?]. revert Ht. cbn. rewrite app_nil_r.
    repeat (case_decide; cbn); intros Ht; try (by left);
      try (right; eexists; split; [reflexivity|apply Ht; by left]);
      congruence.
Qed.

Lemma superstep_single tid cp w cp1 w1 n :
  superstep g tid cp w = (inr cp1, w1) -> next cp = [n] ->
  n ∈ five_nodes /\ lnode (values cp1) = Some n /\
  (next cp1 = [] \/ exists m, next cp1 = [m] /\ (n, m) ∈ transitions).
Proof.
  intros H Hn. apply superstep_inr in H as (results & w0 & Hr & -> & _).
  rewrite Hn in Hr. cbn [run_tasks] in Hr.
  apply bind_inr in Hr as ([u sched] & w2 & Ht & Hr).
  apply bind_inr in Hr as (rs & w3 & Hnil & Hr).
  injection Hnil as <- <-. injection Hr as <- <-.
  apply run_task_inr in Ht as (Hu & Hin & w4 & Hs).
  split; [done|]. cbn. rewrite app_nil_r.
  split; [by rewrite (node_update_lnode _ _ _ Hu)|].
  by eapply successors_at_most_one.
Qed.

(** *** Creating a session *)

Lemma build_graph_guard (ia : list string) :
  bool_decide (ia ≠ [])
  && existsb (fun node => bool_decide (node ∉ node_names g)) ia = true
  <-> invalid_pause_points ia.
Proof.
  rewrite andb_true_iff, bool_decide_eq_true, existsb_exists.
  unfold invalid_pause_points. rewrite node_names_self_builder.
  split; intros [Hne (n & Hin & Hn)]; (split; [done|]); exists n.
  - apply list_elem_of_In in Hin. by apply bool_decide_eq_true in Hn.
  - split; [by apply list_elem_of_In|]. by apply bool_decide_eq_true.
Qed.

(** The two outcomes of [create_session]. *)
Lemma create_session_cases user essay topic max_rev ia w :
  (invalid_pause_points ia /\
   exists m, create_session R user essay topic max_rev ia w =
             (inl (Exception "ValueError" m), tick w)) \/
  (~ invalid_pause_points ia /\
   create_session R user essay topic max_rev ia w =
     (inr (uuid4 R (calls w), Configurable (uuid4 R (calls w)),
           Dict (Some topic) (Some "") (Some "") (Some "") (Some "")
                (Some []) (Some []) (Some 0) (Some max_rev) (Some 0)
                (Some (Some user)) (Some (Some essay))
                (Some (Some (uuid4 R (calls w))))),
      Env (self_db w)
          (Compiled (if bool_decide (ia = []) then None else Some ia) ∅)
          (S (calls w)))).
Proof.
  pose proof (build_graph_guard ia) as Hguard.
  unfold create_session, _build_graph, ask. unfold bind at 1.
  destruct (bool_decide (ia ≠ [])
            && existsb (fun node => bool_decide (node ∉ node_names g)) ia)
    eqn:Eb.
  - left. split; [by apply Hguard|]. unfold bind at 1. by eexists.
  - right. split; [|done]. intros Hi. apply Hguard in Hi. congruence.
Qed.

(** C10: [create_session] raises [ValueError] exactly when the pause-point
    list is not empty and names something that is not one of the five
    nodes, and raises nothing else.  Otherwise it returns the identifier it
    drew, a thread configuration with that identifier, and the initial state
    with [revision_number] and [count] 0, empty [lnode], [plan], [draft] and
    [critique], and empty [content] and [queries]; [self.graph] is then a
    graph with the given pause points ([None] for the empty list) and an
    empty saver. *)
Theorem create_session_spec user essay topic max_rev ia w :
  let sid := uuid4 R (calls w) in
  (invalid_pause_points ia ->
   exists m, create_session R user essay topic max_rev ia w =
             (inl (Exception "ValueError" m), tick w)) /\
  (~ invalid_pause_points ia ->
   create_session R user essay topic max_rev ia w =
     (inr (sid, Configurable sid,
           Dict (Some topic) (Some "") (Some "") (Some "") (Some "")
                (Some []) (Some []) (Some 0) (Some max_rev) (Some 0)
                (Some (Some user)) (Some (Some essay)) (Some (Some sid))),
      Env (self_db w)
          (Compiled (if bool_decide (ia = []) then None else Some ia) ∅)
          (S (calls w)))) /\
  ((exists e w', create_session R user essay topic max_rev ia w = (inl e, w')
                 /\ cls e = "ValueError")
   <-> invalid_pause_points ia) /\
  (forall e w', create_session R user essay topic max_rev ia w = (inl e, w')
                -> cls e = "ValueError").
Proof.
  intros sid.
  destruct (create_session_cases user essay topic max_rev ia w)
    as [[Hinv [m Hm]]|[Hinv Hok]].
  - rewrite Hm. split; [by eauto|]. split; [done|].
    split; [|by intros e w' [= <- <-]].
    split; [done|]. intros _. eexists _, _. split; [reflexivity|done].
  - rewrite Hok. split; [done|]. split; [done|].
    split; [|by intros e w' [= ]].
    split; [by intros (e & w' & [= ] & _)|done].
Qed.

(** *** The [queries] entry *)

(** [research_plan] stores the queries it generated. *)
Lemma research_plan_sets_queries tid cp w cp' w' :
  superstep g tid cp w = (inr cp', w') -> next cp = ["research_plan"] ->
  exists topic qs,
    task (values cp) = Some topic /\
    structured_invoke R (calls w)
      [SystemMessage RESEARCH_PLAN_PROMPT; HumanMessage topic] = inr qs /\
    queries (values cp') = Some qs.
Proof.
  intros H Hn. apply superstep_inr in H as (results & w0 & Hr & -> & _).
  rewrite Hn in Hr. cbn [run_tasks] in Hr.
  apply bind_inr in Hr as ([u sched] & w2 & Ht & Hr).
  apply bind_inr in Hr as (rs & w3 & Hnil & Hr).
  injection Hnil as <- <-. injection Hr as <- <-.
  unfold run_task in Ht. cbn [assoc nodes self_builder] in Ht.
  change (assoc "research_plan" (nodes g))
    with (Some (research_plan_node R)) in Ht.
  apply bind_inr in Ht as (u' & w4 & Hu & Ht).
  apply bind_inr in Ht as (sched' & w5 & _ & Ht).
  injection Ht as -> -> ->.
  apply research_plan_node_inr in Hu as (Hupd & topic & Htask & Hqs).
  inversion Hupd as [|c added qs Hc Heq| | |]; subst u. cbn in Hqs.
  exists topic, qs. by split.
Qed.

(** Every other step, [research_critique] included, leaves [queries] as it
    was. *)
Lemma other_steps_keep_queries tid cp w cp' w' :
  superstep g tid cp w = (inr cp', w') -> "research_plan" ∉ next cp ->
  queries (values cp') = queries (values cp).
Proof.
  intros H Hn. apply superstep_inr in H as (results & w0 & Hr & -> & _).
  apply run_tasks_inr in Hr as (Hups & _). cbn.
  by eapply foldl_queries.
Qed.

(** *** Manual edits *)

(** What [update_state] hands to the engine is the whole dictionary of
    current values with one entry replaced; written back to the channels it
    leaves every plain entry as it was, apart from the one replaced. *)
Lemma edit_other_keys v key (value : key_type key) k' :
  k' ≠ key -> k' ≠ k_count ->
  lookup_key k' (apply_writes v (v .[key ↦ value])) = lookup_key k' v.
Proof.
  intros Hk Hc. destruct key, k'; try done; cbn;
    match goal with |- last_value ?o ?o = _ => by destruct o end.
Qed.

Lemma edit_named_key v key (value : key_type key) :
  key ≠ k_count ->
  lookup_key key (apply_writes v (v .[key ↦ value])) = Some value.
Proof. intros Hc. by destruct key. Qed.

(** The accumulating entry receives the current count once more. *)
Lemma edit_count v key (value : key_type key) c :
  key ≠ k_count -> count v = Some c ->
  count (apply_writes v (v .[key ↦ value])) = Some (c + c).
Proof. intros Hk Hc. destruct key; try done; cbn; by rewrite Hc. Qed.

Lemma edit_count_key v (value : Z) c :
  count v = Some c ->
  count (apply_writes v (v .[k_count ↦ value])) = Some (c + value).
Proof. intros Hc. cbn. by rewrite Hc. Qed.

(** [create_session] replaces [self.graph] by a graph with a new, empty
    saver: a thread of an earlier session has no checkpoint left in it,
    and [run_step] on such a thread reports the engine's failure. *)
Lemma create_session_new_saver user essay topic max_rev ia w r w' tid :
  create_session R user essay topic max_rev ia w = (inr r, w') ->
  history tid w' = [] /\
  run_step R (Configurable tid) None w' =
    (inr (StepResult.Make false None
            (Some "Received no input for __start__") None None None), w').
Proof.
  intros H.
  destruct (create_session_cases user essay topic max_rev ia w)
    as [[_ [m Hm]]|[_ Hok]]; [congruence|].
  rewrite Hok in H. injection H as _ <-.
  split; [done|]. rewrite run_step_unfold. reflexivity.
Qed.

End EngineFacts.

(** ** The statements on the sample sessions *)

(** The step that runs [research_plan] keeps the task ["Tea"]. *)
Lemma task_immutable_witness :
  superstep sample_graph sample_tid sample_cp sample_w1
    = (inr sample_cp1, sample_w2) /\
  task (values sample_cp1) = task (values sample_cp).
Proof.
  assert (superstep sample_graph sample_tid sample_cp sample_w1
          = (inr sample_cp1, sample_w2)) as H by (vm_compute; reflexivity).
  split; [exact H|].
  exact (task_immutable sample_runtime _ _ _ _ _ H).
Defined.

(** The step that runs [generate] takes [revision_number] from 0 to 1. *)
Lemma revision_number_monotone_witness :
  superstep sample_graph sample_tid sample_cp1 sample_w2
    = (inr sample_cp2, sample_w3) /\
  revision_number (values sample_cp1) = Some 0 /\
  revision_number (values sample_cp2) = Some 1.
Proof.
  assert (superstep sample_graph sample_tid sample_cp1 sample_w2
          = (inr sample_cp2, sample_w3)) as H by (vm_compute; reflexivity).
  assert (revision_number (values sample_cp1) = Some 0) as H0
    by (vm_compute; reflexivity).
  split; [exact H|]. split; [exact H0|].
  destruct (revision_number_monotone sample_runtime _ _ _ _ _ H)
    as [_ Hr].
  destruct (Hr 0 H0) as [Hgen _]. apply Hgen.
  vm_compute. by left.
Defined.

(** The step that runs [research_plan] extends the empty [content]. *)
Lemma content_append_only_witness :
  superstep sample_graph sample_tid sample_cp sample_w1
    = (inr sample_cp1, sample_w2) /\
  default [] (content (values sample_cp)) `prefix_of`
    default [] (content (values sample_cp1)).
Proof.
  assert (superstep sample_graph sample_tid sample_cp sample_w1
          = (inr sample_cp1, sample_w2)) as H by (vm_compute; reflexivity).
  split; [exact H|].
  exact (proj2 (content_append_only sample_runtime _ _ _ _ _ H)).
Defined.

(** After the first [generate] of the sample session, with
    [revision_number] 1 and [max_revisions] 2, the edge picks [reflect]. *)
Lemma should_continue_end_iff_witness :
  revision_number (values sample_cp2) = Some 1 /\
  max_revisions (values sample_cp2) = Some 2 /\
  ((should_continue sample_runtime (values sample_cp2) sample_w3).1
     = inr "reflect" <-> 1 <= 2).
Proof.
  assert (revision_number (values sample_cp2) = Some 1) as Hr
    by (vm_compute; reflexivity).
  assert (max_revisions (values sample_cp2) = Some 2) as Hl
    by (vm_compute; reflexivity).
  split; [exact Hr|]. split; [exact Hl|].
  exact (proj1 (proj2
    (should_continue_end_iff sample_runtime _ sample_w3 1 2 Hr Hl))).
Defined.

(** When the model is down, [run_step] reports the failure. *)
Example run_step_reports_failure :
  (run_step failing_runtime (Configurable sample_tid) (Some sample_init)
     (init None)).1
  = inr (StepResult.Make false None (Some "Connection error.") None None None).
Proof. vm_compute. reflexivity. Qed.

(** A list that names an unknown node is refused, a valid one accepted. *)
Example create_session_refuses :
  exists m,
    (create_session sample_runtime 7 1 "Tea" 2 ["planner"; "review"]
       (init None)).1 = inl (Exception "ValueError" m).
Proof. eexists. vm_compute. reflexivity. Qed.

(** C5: after a [research_critique] step the [queries] entry does not hold
    the queries of that step.  In the sample session paused after
    [reflect], [research_critique] is pending with [queries] holding the
    two queries of [research_plan]; the step asks the model, which
    generates the query ["q3"], searches for it and appends the snippet to
    [content], yet [queries] still holds the two old queries. *)
Theorem research_critique_queries_stale :
  next reflected_cp = ["research_critique"] /\
  queries (values reflected_cp) = Some ["q1"; "q2"] /\
  structured_invoke sample_runtime (calls reflected_w)
    [SystemMessage RESEARCH_CRITIQUE_PROMPT; HumanMessage "Some text."]
    = inr ["q3"] /\
  critique (values reflected_cp) = Some "Some text." /\
  exists cp' w',
    superstep sample_graph sample_tid reflected_cp reflected_w
      = (inr cp', w') /\
    lnode (values cp') = Some "research_critique" /\
    content (values cp') = Some ["about q1"; "about q2"; "about q3"] /\
    queries (values cp') = Some ["q1"; "q2"] /\
    queries (values cp') ≠ Some ["q3"].
Proof.
  split; [vm_compute; reflexivity|].
  split; [vm_compute; reflexivity|].
  split; [vm_compute; reflexivity|].
  split; [vm_compute; reflexivity|].
  exists (checkpoint_of
            (superstep sample_graph sample_tid reflected_cp reflected_w)),
         (superstep sample_graph sample_tid reflected_cp reflected_w).2.
  split; [vm_compute; reflexivity|].
  split; [vm_compute; reflexivity|].
  split; [vm_compute; reflexivity|].
  split; [vm_compute; reflexivity|].
  vm_compute. discriminate.
Qed.

(** C4: a manual edit changes an entry other than the named one.  In the
    sample session paused after [planner], where [count] is 1, saving a
    plan with [update_state(thread_config, 'plan', text, 'planner')]
    succeeds and stores the text, and [count] is 2 afterwards. *)
Theorem update_state_changes_count :
  count (values (latest sample_tid sample_w1)) = Some 1 /\
  (update_state sample_runtime (Configurable sample_tid) k_plan
     "My own plan" "planner" sample_w1).1
    = inr (EditResult.Make true None) /\
  plan (values (latest sample_tid edited_w)) = Some "My own plan" /\
  count (values (latest sample_tid edited_w)) = Some 2 /\
  count (values (latest sample_tid edited_w))
    ≠ count (values (latest sample_tid sample_w1)).
Proof.
  split; [vm_compute; reflexivity|].
  split; [vm_compute; reflexivity|].
  split; [vm_compute; reflexivity|].
  split; [vm_compute; reflexivity|].
  vm_compute. discriminate.
Qed.

(** C9: resuming a paused run fails once another session has been created.
    The sample session is paused after [planner], a pause point, with
    [research_plan] pending, and a [run_step] without initial state at that
    moment runs [research_plan].  If instead [create_session] is called
    first, for another user and essay, it succeeds and replaces
    [self.graph] by a graph with an empty saver; the same [run_step] on the
    paused thread then fails with the engine's message for a run without
    input, runs no node and leaves the world as it is: the paused thread
    has no checkpoint any more. *)
Theorem resume_after_create_session_fails :
  interrupt_after_nodes (self_graph sample_w1)
    = Some ["planner"; "research_plan"] /\
  lnode (values sample_cp) = Some "planner" /\
  next sample_cp = ["research_plan"] /\
  (let r := result_of (run_step sample_runtime (Configurable sample_tid) None
                         sample_w1) in
   StepResult.success r = true /\
   option_map lnode (StepResult.current_state r)
     = Some (Some "research_plan")) /\
  (exists init,
     create_session sample_runtime 8 2 "Coffee" 1 [] sample_w1
       = (inr ("session-2", Configurable "session-2", init),
          second_session_w)) /\
  history sample_tid second_session_w = [] /\
  run_step sample_runtime (Configurable sample_tid) None second_session_w
    = (inr (StepResult.Make false None
              (Some "Received no input for __start__") None None None),
       second_session_w).
Proof.
  split; [vm_compute; reflexivity|].
  split; [vm_compute; reflexivity|].
  split; [vm_compute; reflexivity|].
  split; [vm_compute; by split|].
  split; [eexists; vm_compute; reflexivity|].
  split; vm_compute; reflexivity.
Qed.

(** [split] separates words at the Unicode spaces as well: the text
    [a], em space, [b], ideographic space, [c] has three words. *)
Example split_len_unicode_spaces :
  code_points 0 0 em_ideographic = [97; 8195; 98; 12288; 99] /\
  split_len em_ideographic = 3.
Proof. split; vm_compute; reflexivity. Qed.

(** * Further properties of the workflow code *)

Section Coverage.

Variable R : Runtime.

#[local] Abbreviation g := (self_builder R).

(** ** What a step changes *)

Lemma superstep_one tid cp w cp' w' n :
  superstep g tid cp w = (inr cp', w') -> next cp = [n] ->
  exists u sched w1 w2,
    node_update (values cp) n u /\
    successors g n (apply_writes (values cp) u) w1 = (inr sched, w2) /\
    values cp' = apply_writes (values cp) u /\ next cp' = sched.
Proof.
  intros H Hn.
  apply (superstep_inr R) in H as (results & w0 & Hr & -> & _).
  rewrite Hn in Hr. cbn [run_tasks] in Hr.
  apply bind_inr in Hr as ([u sched] & w2 & Ht & Hr).
  apply bind_inr in Hr as (rs & w3 & Hnil & Hr).
  injection Hnil as <- <-. injection Hr as <- <-.
  apply (run_task_inr R) in Ht as (Hu & _ & w4 & Hs).
  exists u, sched, w4, w2. cbn. rewrite app_nil_r. by repeat split.
Qed.

(** X1: a node changes nothing but the entries of the dictionary it
    returns.  After a step that runs node [n], every key that is not among
    the keys [n] writes ([plan, lnode, count] for [planner], and so on) has
    the value it had before. *)
Theorem step_frame tid cp w cp' w' n k :
  superstep g tid cp w = (inr cp', w') -> next cp = [n] ->
  k ∉ writes n ->
  lookup_key k (values cp') = lookup_key k (values cp).
Proof.
  intros H Hn Hk.
  destruct (superstep_one _ _ _ _ _ _ H Hn)
    as (u & sched & w1 & w2 & Hu & _ & -> & _).
  destruct Hu; destruct k; cbn; try done; exfalso; apply Hk;
    vm_compute; by repeat constructor.
Qed.

Lemma foldl_count s acc pending ups c :
  Forall2 (node_update s) pending ups -> count acc = Some c ->
  count (foldl apply_writes acc ups) = Some (c + Z.of_nat (length pending)).
Proof.
  intros H. revert acc c. induction H as [|n u pending ups Hu _ IH];
    intros acc c Hc; cbn [foldl length].
  - rewrite Hc. f_equal. lia.
  - rewrite (IH _ (c + 1)).
    + f_equal. lia.
    + cbn. by rewrite (node_update_count _ _ _ Hu), Hc.
Qed.

(** X2: [count] counts the nodes that ran, and [lnode] names the last one.
    A step adds to [count] the number of nodes it runs, one in this graph,
    and a step that runs node [n] leaves [lnode] bound to [n]. *)
Theorem step_count_lnode tid cp w cp' w' c :
  superstep g tid cp w = (inr cp', w') -> count (values cp) = Some c ->
  count (values cp') = Some (c + Z.of_nat (length (next cp))) /\
  (forall n, next cp = [n] ->
     count (values cp') = Some (c + 1) /\ lnode (values cp') = Some n).
Proof.
  intros H Hc.
  pose proof (superstep_inr R _ _ _ _ _ H) as (results & w0 & Hr & -> & _).
  apply (run_tasks_inr R) in Hr as (Hups & _). cbn.
  rewrite (foldl_count _ _ _ _ _ Hups Hc). split; [done|].
  intros n Hn. rewrite Hn. split; [done|].
  rewrite Hn in Hups.
  inversion Hups as [|? u ? ups Hu Hrest]; subst.
  inversion Hrest; subst. cbn.
  by rewrite (node_update_lnode _ _ _ Hu).
Qed.

Lemma apply_writes_keeps_keys s u k :
  is_Some (lookup_key k s) -> is_Some (lookup_key k (apply_writes s u)).
Proof.
  destruct k; cbn; intros [v Hv]; rewrite Hv;
    match goal with
    | |- is_Some (last_value _ ?o) => by destruct o
    | |- is_Some (binop_add _ ?o) => by destruct o
    end.
Qed.

Lemma foldl_keeps_keys ups acc k :
  is_Some (lookup_key k acc) ->
  is_Some (lookup_key k (foldl apply_writes acc ups)).
Proof.
  revert acc. induction ups as [|u ups IH]; intros acc H; cbn [foldl];
    [done|].
  apply IH. by apply apply_writes_keeps_keys.
Qed.

(** X4: the workflow ends only after [generate], with the revision limit
    exceeded.  If a step that runs node [n] schedules nothing, then [n] is
    [generate] and, in the state it leaves, [revision_number] is greater
    than [max_revisions]. *)
Theorem step_ends_after_generate tid cp w cp' w' n :
  superstep g tid cp w = (inr cp', w') -> next cp = [n] ->
  next cp' = [] ->
  n = "generate" /\
  exists rev lim,
    revision_number (values cp') = Some rev /\
    max_revisions (values cp') = Some lim /\ lim < rev.
Proof.
  intros H Hn Hend.
  destruct (superstep_one _ _ _ _ _ _ H Hn)
    as (u & sched & w1 & w2 & Hu & Hs & Hv & Hsched).
  rewrite Hend in Hsched. subst sched. rewrite <- Hv in Hs.
  destruct Hu.
  - by rewrite successors_planner in Hs.
  - by rewrite successors_research_plan in Hs.
  - split; [done|]. rewrite successors_generate in Hs.
    destruct (should_continue R (values cp') w1) as [[e|dest] w3] eqn:E;
      [done|].
    apply should_continue_inr in E as (rev & lim & Hr & Hl & ->).
    exists rev, lim. split; [done|]. split; [done|].
    destruct (Z.gtb_spec rev lim); [lia|]. by case_decide.
  - by rewrite successors_reflect in Hs.
  - by rewrite successors_research_critique in Hs.
Qed.

(** ** Whole runs *)

Lemma node_update_fixed s n u :
  node_update s n u ->
  task u = None /\ max_revisions u = None /\ user_id u = None /\
  essay_id u = None /\ session_id u = None.
Proof. by destruct 1. Qed.

Lemma foldl_fixed s acc pending ups :
  Forall2 (node_update s) pending ups ->
  task (foldl apply_writes acc ups) = task acc /\
  max_revisions (foldl apply_writes acc ups) = max_revisions acc /\
  user_id (foldl apply_writes acc ups) = user_id acc /\
  essay_id (foldl apply_writes acc ups) = essay_id acc /\
  session_id (foldl apply_writes acc ups) = session_id acc.
Proof.
  intros H. revert acc. induction H as [|n u pending ups Hu _ IH];
    intros acc; cbn [foldl]; [done|].
  destruct (IH (apply_writes acc u)) as (-> & -> & -> & -> & ->). cbn.
  destruct (node_update_fixed _ _ _ Hu) as (-> & -> & -> & -> & ->).
  done.
Qed.

Lemma advances_refl s : advances s s.
Proof.
  repeat split; try done.
  - exists []. destruct (content s); cbn; [|done]. by rewrite app_nil_r.
  - intros r ->. exists r. split; [done|lia].
  - intros c ->. exists c. split; [done|lia].
Qed.

Lemma advances_trans s1 s2 s3 :
  advances s1 s2 -> advances s2 s3 -> advances s1 s3.
Proof.
  intros (Ht1 & Hm1 & Hu1 & He1 & Hs1 & [a1 Hc1] & Hr1 & Hn1)
         (Ht2 & Hm2 & Hu2 & He2 & Hs2 & [a2 Hc2] & Hr2 & Hn2).
  repeat split; try congruence.
  - exists (a1 ++ a2)%list. rewrite Hc2, Hc1.
    destruct (content s1); cbn; [|done]. by rewrite app_assoc.
  - intros r Hr. destruct (Hr1 r Hr) as (r' & Hr' & ?).
    destruct (Hr2 r' Hr') as (r'' & ? & ?). exists r''. split; [done|lia].
  - intros c Hc. destruct (Hn1 c Hc) as (c' & Hc' & ?).
    destruct (Hn2 c' Hc') as (c'' & ? & ?). exists c''. split; [done|lia].
Qed.

Lemma superstep_advances tid cp w cp' w' :
  superstep g tid cp w = (inr cp', w') -> advances (values cp) (values cp').
Proof.
  intros H.
  apply (superstep_inr R) in H as (results & w0 & Hr & -> & _).
  apply (run_tasks_inr R) in Hr as (Hups & _). cbn.
  destruct (foldl_fixed _ (values cp) _ _ Hups) as (Ht & Hm & Hu & He & Hs).
  repeat split; try done.
  - eapply foldl_content; [done|]. exists [].
    destruct (content (values cp)); cbn; [|done]. by rewrite app_nil_r.
  - intros r Hrev. rewrite (foldl_revision _ _ _ _ Hups).
    unfold next_revision. rewrite Hrev. cbn. case_bool_decide.
    + exists (r + 1). split; [done|lia].
    + exists r. split; [done|lia].
  - intros c Hc. rewrite (foldl_count _ _ _ _ _ Hups Hc).
    eexists. split; [done|lia].
Qed.

Lemma pregel_loop_advances pause tid fuel cp w v w' :
  pregel_loop R g pause tid fuel cp w = (inr v, w') -> advances (values cp) v.
Proof.
  revert cp w. induction fuel as [|fuel IH]; intros cp w; [done|].
  destruct (next cp) as [|n rest] eqn:En.
  { rewrite pregel_loop_done by done. intros [= <- _].
    apply advances_refl. }
  rewrite pregel_loop_step by by rewrite En.
  destruct (superstep g tid cp w) as [[e|cp1] w1] eqn:Es; [discriminate|].
  apply superstep_advances in Es.
  destruct (existsb _ _).
  + by intros [= <- _].
  + intros H. apply IH in H. by eapply advances_trans.
Qed.

Lemma invoke_input tid i w :
  invoke R g (Some i) tid w =
  (let base := latest tid w in
   let received :=
     Snapshot (values base) ["__start__"]
              (Meta "input" (step (metadata base) + 1)) in
   let cp0 :=
     Snapshot (apply_writes (values base) i) (option_list (entry_point g))
              (Meta "loop" (step (metadata base) + 2)) in
   let* _ := put_checkpoint tid received in
   let* _ := put_checkpoint tid cp0 in
   pregel_loop R g (default [] (interrupt_after_nodes (self_graph w))) tid
     (recursion_limit R) cp0) w.
Proof. unfold invoke, get_world. unfold bind at 1. cbn. by destruct (history tid w). Qed.

(** X5: what a whole [run_step] does to the state.  When [run_step]
    succeeds, however many steps it took, the state it reports has the
    [task], [max_revisions], [user_id], [essay_id] and [session_id] of the
    state the run started from (the last checkpoint, with the initial
    state written to it when one is given), its [content] extends the old
    one, and [revision_number] and [count] have not decreased. *)
Theorem run_step_advances tid input w res w' :
  run_step R (Configurable tid) input w = (inr res, w') ->
  StepResult.success res = true ->
  exists v,
    StepResult.response res = Some v /\
    advances
      (match input with
       | Some i => apply_writes (values (latest tid w)) i
       | None => values (latest tid w)
       end) v.
Proof.
  rewrite run_step_unfold. cbn [thread_id].
  destruct (invoke R g input tid w) as [[e|v] w1] eqn:Ei;
    intros [= <- <-]; [done|]. intros _. exists v. split; [done|].
  destruct input as [i|].
  - rewrite invoke_input in Ei. cbn zeta in Ei.
    apply bind_inr in Ei as ([] & w2 & _ & Ei).
    apply bind_inr in Ei as ([] & w3 & _ & Ei).
    by apply pregel_loop_advances in Ei.
  - destruct (history tid w) as [|cp past] eqn:Eh.
    + unfold invoke, get_world, bind in Ei. by rewrite Eh in Ei.
    + rewrite (invoke_resume R _ _ _ _ Eh) in Ei.
      apply pregel_loop_advances in Ei. unfold latest. by rewrite Eh.
Qed.

(** ** Failures *)

(** When the loop raises, the thread keeps its checkpoints; and unless the
    bound on steps was used up, a node is still pending in the last one. *)
Lemma pregel_loop_inl pause tid fuel cp w e w' :
  pregel_loop R g pause tid fuel cp w = (inl e, w') ->
  latest tid w = cp -> history tid w ≠ [] ->
  history tid w' ≠ [] /\
  (msg e ≠ recursion_error R -> next (latest tid w') ≠ []).
Proof.
  revert cp w. induction fuel as [|fuel IH]; intros cp w.
  - rewrite pregel_loop_out. by intros [= <- <-] _ ?.
  - destruct (next cp) as [|n rest] eqn:En.
    { by rewrite pregel_loop_done by done. }
    rewrite pregel_loop_step by by rewrite En.
    destruct (superstep g tid cp w) as [[e1|cp1] w1] eqn:Es.
    { intros [= <- <-] Hl Hh. apply (superstep_inl R) in Es.
      unfold latest in *. rewrite (history_keeps_graph tid w w1 Es).
      split; [done|]. intros _. rewrite Hl. by rewrite En. }
    apply (superstep_inr R) in Es as (results & w0 & _ & _ & Hh1 & _).
    destruct (existsb _ _); [discriminate|].
    intros H _ _. eapply IH; [done| |].
    + unfold latest. by rewrite Hh1.
    + by rewrite Hh1.
Qed.

(** X6: a failed resume can be retried.  When [run_step] without initial
    state fails on a thread that has checkpoints, it reports the message
    with no state and the thread has lost none of its checkpoints: the
    steps completed before the failure are kept and the failed one left
    nothing behind.  Unless the message is that of the engine's bound on
    steps, the last checkpoint still has a node pending, the one that
    failed.  The next [run_step] starts again from the last checkpoint. *)
Theorem failed_run_step_keeps_pending tid w res w' :
  run_step R (Configurable tid) None w = (inr res, w') ->
  StepResult.success res = false ->
  history tid w ≠ [] ->
  StepResult.current_state res = None /\
  is_Some (StepResult.error res) /\
  (exists added, history tid w' = (added ++ history tid w)%list) /\
  (StepResult.error res ≠ Some (recursion_error R) ->
   next (latest tid w') ≠ []) /\
  invoke R g None tid w' =
    pregel_loop R g (default [] (interrupt_after_nodes (self_graph w))) tid
      (recursion_limit R + 2) (latest tid w') w'.
Proof.
  rewrite run_step_unfold. cbn [thread_id].
  destruct (invoke R g None tid w) as [[e|v] w1] eqn:Ei;
    intros [= <- <-]; [|done]. intros _ Hh.
  destruct (history tid w) as [|cp past] eqn:Eh; [done|].
  rewrite (invoke_resume R _ _ _ _ Eh) in Ei.
  pose proof (pregel_loop_history R _ _ _ _ _ _ _ Ei) as (Hadd & Hi & _).
  apply pregel_loop_inl in Ei as [Hne Hnext];
    [|unfold latest; by rewrite Eh|by rewrite Eh].
  split; [done|]. split; [by eexists|]. rewrite Eh in Hadd.
  split; [done|]. cbn [StepResult.error].
  split; [intros Hm; apply Hnext; congruence|].
  destruct (history tid w1) as [|cp1 past1] eqn:Eh1; [done|].
  rewrite (invoke_resume R _ _ _ _ Eh1), Hi.
  unfold latest. by rewrite Eh1.
Qed.

(** ** Missing keys *)

(** X7: what each node does on a state that lacks a key it reads.
    [plan_node] and [research_plan_node] raise [KeyError('task')],
    [generation_node] raises [KeyError('content')], [reflection_node]
    [KeyError('draft')], [research_critique_node] [KeyError('critique')] and
    [should_continue] [KeyError('revision_number')], all before any provider
    is called; [research_plan_node] on a state with [task] but without
    [content] raises [KeyError('content')] after it has asked the model for
    queries. *)
Theorem missing_key_raises s w :
  (task s = None ->
   plan_node R s w = (inl (KeyError k_task), w) /\
   research_plan_node R s w = (inl (KeyError k_task), w)) /\
  (content s = None ->
   generation_node R s w = (inl (KeyError k_content), w)) /\
  (draft s = None ->
   reflection_node R s w = (inl (KeyError k_draft), w)) /\
  (critique s = None ->
   research_critique_node R s w = (inl (KeyError k_critique), w)) /\
  (revision_number s = None ->
   should_continue R s w = (inl (KeyError k_revision_number), w)) /\
  (forall topic qs,
     task s = Some topic -> content s = None ->
     structured_invoke R (calls w)
       [SystemMessage RESEARCH_PLAN_PROMPT; HumanMessage topic] = inr qs ->
     research_plan_node R s w = (inl (KeyError k_content), tick w)).
Proof.
  unfold plan_node, research_plan_node, generation_node, reflection_node,
    research_critique_node, should_continue, getitem, bind, call. cbn.
  repeat split; intros;
    repeat (cbn; match goal with H : _ = _ |- _ => rewrite H; clear H end);
    reflexivity.
Qed.

(** ** Searching *)

Lemma search_all_answers qs : forall c w,
  (forall i q, exists rs, tavily_search R i q 2 = inr rs) ->
  search_all R qs c w =
    (inr (c ++ found_from R (calls w) qs)%list,
     Env (self_db w) (self_graph w) (calls w + length qs)%nat).
Proof.
  induction qs as [|q qs IH]; intros c w Hans; cbn [search_all found_from].
  - destruct w. cbn. by rewrite app_nil_r, Nat.add_0_r.
  - destruct (Hans (calls w) q) as [rs Hrs].
    unfold bind, call. rewrite Hrs. rewrite IH by done. cbn.
    rewrite <- app_assoc. do 2 f_equal. f_equal. lia.
Qed.

(** X8: what a research node adds.  When every search answers,
    [research_plan_node], on a state with [task] and [content] and with the
    model returning the queries [qs], returns [qs] as [queries] and as
    [content] the old list followed by the snippets of each query, in the
    order of the queries, every search asking for 2 results; it makes one
    call to the model and one search per query.  With no query the content
    is returned as it was. *)
Theorem research_plan_node_returns s w topic c qs :
  task s = Some topic -> content s = Some c ->
  structured_invoke R (calls w)
    [SystemMessage RESEARCH_PLAN_PROMPT; HumanMessage topic] = inr qs ->
  (forall i q, exists rs, tavily_search R i q 2 = inr rs) ->
  research_plan_node R s w =
    (inr (dict0 .[k_content ↦ (c ++ found_from R (S (calls w)) qs)%list]
                .[k_queries ↦ qs] .[k_lnode ↦ "research_plan"]
                .[k_count ↦ 1]),
     Env (self_db w) (self_graph w) (S (calls w) + length qs)%nat) /\
  (qs = [] -> found_from R (S (calls w)) qs = []).
Proof.
  intros Ht Hc Hqs Hans. split; [|by intros ->].
  unfold research_plan_node.
  rewrite (bind_run _ _ w topic w) by by apply (getitem_some k_task).
  rewrite (bind_run _ _ w qs (tick w)) by (unfold call; by rewrite Hqs).
  rewrite (bind_run _ _ (tick w) c (tick w))
    by by apply (getitem_some k_content).
  unfold bind. rewrite search_all_answers by done. done.
Qed.

(** X9: a failing search aborts the node.  If the search for the query at
    position [j] fails while the searches before it answered, the loop
    raises that failure after [j + 1] searches, and nothing of what was
    found so far is returned. *)
Theorem search_all_fails qs : forall j c w q e,
  qs !! j = Some q ->
  (forall j' q', (j' < j)%nat -> qs !! j' = Some q' ->
     exists rs, tavily_search R (calls w + j') q' 2 = inr rs) ->
  tavily_search R (calls w + j) q 2 = inl e ->
  search_all R qs c w =
    (inl e, Env (self_db w) (self_graph w) (calls w + j + 1)%nat).
Proof.
  induction qs as [|q0 qs IH]; intros j c w q e Hq Hbefore Hfail;
    [done|].
  cbn [search_all]. unfold bind, call. destruct j as [|j].
  - injection Hq as ->. rewrite Nat.add_0_r in Hfail. rewrite Hfail.
    unfold tick. do 2 f_equal. lia.
  - destruct (Hbefore 0%nat q0) as [rs Hrs]; [lia|done|].
    rewrite Nat.add_0_r in Hrs. rewrite Hrs.
    rewrite (IH j _ (tick w) q e); [cbn; do 2 f_equal; lia|done| |].
    + intros j' q' Hj' Hq'. cbn.
      destruct (Hbefore (S j') q') as [rs' Hrs']; [lia|done|].
      exists rs'. rewrite <- Hrs'. f_equal. lia.
    + cbn. rewrite <- Hfail. f_equal. lia.
Qed.

(** ** The essay table *)

Lemma bind_any {A B} (c : M A) (k : A -> M B) w r w' :
  bind c k w = (r, w') ->
  (exists e, c w = (inl e, w') /\ r = inl e) \/
  exists a w1, c w = (inr a, w1) /\ k a w1 = (r, w').
Proof.
  unfold bind. destruct (c w) as [[e|a] w1]; intros H.
  - left. exists e. by simplify_eq.
  - right. eauto.
Qed.

Lemma db_kept_same i w w' : self_db w' = self_db w -> db_kept i w w'.
Proof.
  unfold db_kept. intros ->. destruct (self_db w) as [db|]; [|done].
  by exists db.
Qed.

Lemma db_kept_trans i w1 w2 w3 :
  db_kept i w1 w2 -> db_kept i w2 w3 -> db_kept i w1 w3.
Proof.
  unfold db_kept. destruct (self_db w1) as [db1|].
  - intros (db2 & -> & Hd2 & H2) (db3 & -> & Hd3 & H3).
    exists db3. split; [done|]. split; [congruence|].
    intros j Hj. by rewrite H3, H2.
  - by intros ->.
Qed.

Lemma keeps_db_ret {A} i (a : A) : keeps_db i (ret a).
Proof. intros w r w' [= _ <-]. by apply db_kept_same. Qed.

Lemma keeps_db_raise {A} i e : keeps_db i (@raise A e).
Proof. intros w r w' [= _ <-]. by apply db_kept_same. Qed.

Lemma keeps_db_getitem i k d : keeps_db i (getitem k d).
Proof.
  unfold getitem. destruct (lookup_key k d);
    [apply keeps_db_ret | apply keeps_db_raise].
Qed.

Lemma keeps_db_call {A} i (f : nat -> exn + A) : keeps_db i (call f).
Proof. intros w r w' [= _ <-]. by apply db_kept_same. Qed.

Lemma keeps_db_bind {A B} i (c : M A) (k : A -> M B) :
  keeps_db i c -> (forall a, keeps_db i (k a)) -> keeps_db i (bind c k).
Proof.
  intros Hc Hk w r w' H.
  apply bind_any in H as [(e & H & _)|(a & w1 & H1 & H2)]; [by eapply Hc|].
  eapply db_kept_trans; [by eapply Hc | by eapply Hk].
Qed.

Lemma keeps_db_save_essay s n ch : keeps_db (truthy_id s) (save_essay R s n ch).
Proof.
  intros w r w'. unfold save_essay, db_kept.
  destruct (self_db w) as [db|] eqn:Edb; [|by intros [= _ <-]].
  destruct (truthy_id s) as [i|]; [|intros [= _ <-]; by exists db].
  destruct (db !! i) as [row|] eqn:Ei; [|intros [= _ <-]; by exists db].
  intros [= _ <-]. cbn. eexists. split; [done|]. split.
  - apply dom_insert_lookup_L. by eexists.
  - intros j Hj. rewrite lookup_insert_ne; [done|congruence].
Qed.

Lemma keeps_db_search_all i qs c : keeps_db i (search_all R qs c).
Proof.
  revert c. induction qs as [|q qs IH]; intros c; cbn [search_all].
  - apply keeps_db_ret.
  - apply keeps_db_bind; [apply keeps_db_call|done].
Qed.

Create HintDb table.
#[local] Hint Resolve keeps_db_ret keeps_db_raise keeps_db_getitem
  keeps_db_call keeps_db_save_essay keeps_db_search_all : table.
#[local] Hint Extern 2 (keeps_db _ (bind _ _)) =>
  apply keeps_db_bind; [|intros ?] : table.

Lemma keeps_db_node s n action :
  assoc n (nodes g) = Some action -> keeps_db (truthy_id s) (action s).
Proof.
  intros H. apply (assoc_nodes R) in H as
    [[-> ->]|[[-> ->]|[[-> ->]|[[-> ->]|[-> ->]]]]].
  - unfold plan_node. eauto 10 with table.
  - unfold research_plan_node. eauto 10 with table.
  - unfold generation_node. eauto 12 with table.
  - unfold reflection_node. eauto 10 with table.
  - unfold research_critique_node. eauto 10 with table.
Qed.

Lemma keeps_db_should_continue s :
  keeps_db (truthy_id s) (should_continue R s).
Proof.
  unfold should_continue.
  apply keeps_db_bind; [auto with table|]. intros rev.
  apply keeps_db_bind; [auto with table|]. intros lim.
  destruct (rev >? lim)%Z; eauto 6 with table.
Qed.

Lemma keeps_db_successors n s : keeps_db (truthy_id s) (successors g n s).
Proof.
  intros w r w'.
  destruct (decide (n = "generate")) as [->|Hn].
  - rewrite successors_generate.
    destruct (should_continue R s w) as [[e|t] w1] eqn:E;
      intros [= _ <-]; by eapply keeps_db_should_continue.
  - unfold successors. rewrite run_branches_other by done.
    intros [= _ <-]. by apply db_kept_same.
Qed.

Lemma truthy_id_node_update s n u :
  node_update s n u -> truthy_id (apply_writes s u) = truthy_id s.
Proof. intros H. unfold truthy_id. by destruct H. Qed.

Lemma keeps_db_run_task s n : keeps_db (truthy_id s) (run_task g s n).
Proof.
  intros w r w'. unfold run_task.
  destruct (assoc n (nodes g)) as [action|] eqn:E;
    [|intros [= _ <-]; by apply db_kept_same].
  intros H.
  apply bind_any in H as [(e & H & _)|(u & w1 & Hu & H)];
    [by eapply keeps_db_node|].
  eapply db_kept_trans; [by eapply keeps_db_node|].
  assert (node_update s n u) as Hupd.
  { apply (assoc_nodes R) in E as
      [[-> ->]|[[-> ->]|[[-> ->]|[[-> ->]|[-> ->]]]]].
    - by eapply plan_node_inr.
    - by eapply research_plan_node_inr.
    - by eapply generation_node_inr.
    - by eapply reflection_node_inr.
    - by eapply research_critique_node_inr. }
  apply bind_any in H as [(e & H & _)|(sched & w2 & Hs & H)].
  - rewrite <- (truthy_id_node_update _ _ _ Hupd).
    by eapply keeps_db_successors.
  - injection H as _ <-. rewrite <- (truthy_id_node_update _ _ _ Hupd).
    by eapply keeps_db_successors.
Qed.

Lemma keeps_db_run_tasks s pending :
  keeps_db (truthy_id s) (run_tasks g s pending).
Proof.
  induction pending as [|n rest IH]; cbn [run_tasks].
  - apply keeps_db_ret.
  - apply keeps_db_bind; [apply keeps_db_run_task|]. intros r.
    apply keeps_db_bind; [apply IH|]. intros rs. apply keeps_db_ret.
Qed.

(** X10: a step touches at most the essay row named by the state.  Whether
    it completes or fails, a step of the workflow on a writer without
    database leaves it without database, and otherwise neither adds nor
    deletes a row of the essay table and leaves every row unchanged except
    possibly the one whose id is the state's [essay_id] (none when that is
    absent, [None] or 0). *)
Theorem step_keeps_essay_table tid cp w :
  let w' := (superstep g tid cp w).2 in
  (self_db w = None -> self_db w' = None) /\
  (forall db, self_db w = Some db ->
     exists db', self_db w' = Some db' /\ dom db' = dom db /\
       forall j, truthy_id (values cp) ≠ Some j -> db' !! j = db !! j).
Proof.
  intros w'.
  assert (db_kept (truthy_id (values cp)) w w') as H.
  { subst w'. destruct (superstep g tid cp w) as [r w1] eqn:E. cbn.
    unfold superstep in E.
    apply bind_any in E as [(e & E & _)|(results & w2 & Hr & E)];
      [by eapply keeps_db_run_tasks|].
    eapply db_kept_trans; [by eapply keeps_db_run_tasks|].
    apply bind_any in E as [(e & E & _)|([] & w3 & Hp & E)].
    - injection E as _ <-. by apply db_kept_same.
    - injection Hp as <-. injection E as _ <-. by apply db_kept_same. }
  unfold db_kept in H. split.
  - intros Hn. by rewrite Hn in H.
  - intros db Hdb. by rewrite Hdb in H.
Qed.

Lemma save_essay_row s n ch w db i e :
  self_db w = Some db -> truthy_id s = Some i -> db !! i = Some e ->
  save_essay R s n ch w =
    (inr tt,
     Env (Some (<[i := ch (fun j => utcnow R (calls w + j)%nat) e]> db))
         (self_graph w) (calls w + n)%nat).
Proof. unfold save_essay. by intros -> -> ->. Qed.

(** X11: [generation_node] stores in the essay row what it returns.  On a
    writer with a database that holds the row of the state's [essay_id],
    when [generation_node] returns, the row's [draft] is the returned draft,
    its [revision_number] the returned one, its [word_count] the number of
    words of the draft and its [updated_at] the time read after the model
    answered; the other columns and the other rows are unchanged. *)
Theorem generation_node_row s w u w' db i e :
  generation_node R s w = (inr u, w') ->
  self_db w = Some db -> truthy_id s = Some i -> db !! i = Some e ->
  exists text e',
    draft u = Some text /\
    revision_number u = Some (Essay.revision_number e') /\
    self_db w' = Some (<[i := e']> db) /\
    Essay.draft e' = Some text /\
    Essay.word_count e' = split_len text /\
    Essay.updated_at e' = utcnow R (S (calls w)) /\
    Essay.title e' = Essay.title e /\ Essay.topic e' = Essay.topic e /\
    Essay.plan e' = Essay.plan e /\ Essay.critique e' = Essay.critique e /\
    Essay.final_essay e' = Essay.final_essay e /\
    Essay.status e' = Essay.status e /\
    Essay.completed_at e' = Essay.completed_at e.
Proof.
  unfold generation_node. intros H Hdb Hi He.
  apply bind_inr in H as (c & w1 & Hc & H). apply getitem_inr in Hc as [_ ->].
  apply bind_inr in H as (t & w1 & Ht & H). apply getitem_inr in Ht as [_ ->].
  apply bind_inr in H as (p & w1 & Hp & H). apply getitem_inr in Hp as [_ ->].
  apply bind_inr in H as (text & w1 & Hm & H). apply call_inr in Hm as [_ ->].
  apply bind_inr in H as ([] & w1 & Hs & H).
  rewrite (save_essay_row _ _ _ _ db i e) in Hs by done.
  injection Hs as <-. injection H as <- <-.
  eexists text, _. cbn. rewrite Nat.add_0_r. by repeat split.
Qed.

(** X12: the essay is marked completed exactly when the edge ends the run.
    When [should_continue] returns ["reflect"] it has changed nothing; when
    it returns [END] on a writer with a database that holds the row of the
    state's [essay_id], the row has [status] ["completed"], [final_essay]
    the state's [draft] and [completed_at] the current time, the columns
    [plan], [draft], [critique], [revision_number] and [word_count] being
    as they were. *)
Theorem should_continue_marks_completed s w dest w' :
  should_continue R s w = (inr dest, w') ->
  (dest = "reflect" -> w' = w) /\
  (dest = END ->
   forall db i e,
     self_db w = Some db -> truthy_id s = Some i -> db !! i = Some e ->
     exists e',
       self_db w' = Some (<[i := e']> db) /\
       Essay.status e' = "completed" /\
       Essay.final_essay e' = draft s /\
       Essay.completed_at e' = Some (utcnow R (calls w)) /\
       Essay.plan e' = Essay.plan e /\ Essay.draft e' = Essay.draft e /\
       Essay.critique e' = Essay.critique e /\
       Essay.revision_number e' = Essay.revision_number e /\
       Essay.word_count e' = Essay.word_count e).
Proof.
  unfold should_continue. intros H.
  apply bind_inr in H as (rev & w1 & Hr & H). apply getitem_inr in Hr as [_ ->].
  apply bind_inr in H as (lim & w1 & Hl & H). apply getitem_inr in Hl as [_ ->].
  destruct (rev >? lim)%Z.
  - apply bind_inr in H as ([] & w1 & Hs & H). injection H as <- <-.
    split; [done|]. intros _ db i e Hdb Hi He.
    rewrite (save_essay_row _ _ _ _ db i e) in Hs by done.
    injection Hs as <-. eexists. cbn. rewrite Nat.add_0_r. by repeat split.
  - injection H as <- <-. by split.
Qed.

(** ** Sessions *)

(** X13: a new session discards the earlier ones, a refused one does not.
    When [create_session] returns, the writer's graph has no checkpoint of
    any thread, and [run_step] without initial state on any thread, those
    of earlier sessions included, reports a failure and changes nothing.
    When [create_session] raises, [self.graph] is the graph it was. *)
Theorem create_session_discards_sessions user essay topic max_rev ia w r w' :
  create_session R user essay topic max_rev ia w = (r, w') ->
  (forall session, r = inr session ->
   forall tid,
     history tid w' = [] /\
     exists message,
       run_step R (Configurable tid) None w' =
         (inr (StepResult.Make false None (Some message) None None None),
          w')) /\
  (forall e, r = inl e -> self_graph w' = self_graph w).
Proof.
  intros H.
  destruct (create_session_cases R user essay topic max_rev ia w)
    as [[_ [m Hm]]|[_ Hok]].
  - rewrite Hm in H. injection H as <- <-. split; [done|]. by intros e _.
  - rewrite Hok in H. injection H as <- <-. split; [|done].
    intros session _ tid. split; [done|].
    eexists. rewrite run_step_unfold. reflexivity.
Qed.

(** X14: [get_session_state] never raises and agrees with [run_step].
    After a [run_step] that succeeded, [get_session_state] on the same
    thread returns, without changing anything, the values, the next nodes
    and the metadata that [run_step] reported, and no error. *)
Theorem get_session_state_after_run_step tid input w res w' :
  run_step R (Configurable tid) input w = (inr res, w') ->
  StepResult.success res = true ->
  get_session_state (Configurable tid) w' =
    (inr (StateView.Make (StepResult.current_state res)
            (StepResult.next_node res) (StepResult.metadata res) None), w').
Proof.
  rewrite run_step_unfold. cbn [thread_id].
  destruct (invoke R g input tid w) as [[e|v] w1] eqn:Ei;
    intros [= <- <-]; [done|]. intros _.
  apply (invoke_inr_history R) in Ei.
  destruct (history tid w1) as [|cp past] eqn:Eh; [done|].
  unfold get_session_state, try_except. cbn [thread_id]. unfold bind.
  rewrite (get_state_some _ _ _ _ Eh). cbn. unfold latest. by rewrite Eh.
Qed.

(** ** Manual edits *)

Lemma update_state_unfold tid key (value : key_type key) as_node w :
  update_state R (Configurable tid) key value as_node w =
  (let state :=
     apply_writes (values (latest tid w))
       ((reported_values tid w) .[key ↦ value]) in
   if bool_decide (as_node ∈ five_nodes) then
     match successors g as_node state w with
     | (inr sched, w1) =>
         (inr (EditResult.Make true None),
          (put_checkpoint tid
             (Snapshot state sched (Meta "update" (saved_step tid w + 1)))
             w1).2)
     | (inl e, w1) => (inr (EditResult.Make false (Some (msg e))), w1)
     end
   else
     (inr (EditResult.Make false
             (Some ("Node " +:+ as_node +:+ " does not exist"))), w)).
Proof.
  unfold update_state, try_except, graph_update_state, reported_values.
  cbn [thread_id]. unfold bind at 1.
  assert (exists snap, get_state tid w = (inr snap, w) /\
            StateSnapshot.values snap
            = match history tid w with cp :: _ => values cp | [] => dict0 end)
    as (snap & -> & ->).
  { destruct (history tid w) as [|cp past] eqn:Eh.
    - rewrite (get_state_none _ _ Eh). by eexists.
    - rewrite (get_state_some _ _ _ _ Eh). by eexists. }
  unfold get_world, bind, ret. rewrite node_names_self_builder.
  cbn zeta. case_bool_decide; [|done].
  by destruct (successors g as_node _ w) as [[e|sched] w1].
Qed.

(** On a thread without checkpoint the edit is written to the empty
    channels. *)
Lemma edit_empty_thread key (value : key_type key) :
  key ≠ k_count ->
  lookup_key key (apply_writes empty_channels (dict0 .[key ↦ value]))
  = Some value /\
  (forall k', k' ≠ key -> k' ≠ k_count ->
     lookup_key k' (apply_writes empty_channels (dict0 .[key ↦ value]))
     = lookup_key k' empty_channels) /\
  count (apply_writes empty_channels (dict0 .[key ↦ value])) = Some 0.
Proof.
  intros Hk. split; [by destruct key|]. split; [|by destruct key].
  intros k' Hk' Hc. by destruct key, k'.
Qed.

(** X15: what a manual edit changes and what it keeps.  [update_state]
    never raises.  When it succeeds for a key other than [count], the
    thread has one more checkpoint on top of those it had; in it the key is
    bound to the given value, every key other than it and [count] has the
    value it had, and [count], written back through its accumulating
    channel, is twice what it was.  When it fails, as it does when
    [as_node] is not a node of the graph, no checkpoint is added. *)
Theorem update_state_edits_one_key tid key (value : key_type key) as_node w :
  exists res w',
    update_state R (Configurable tid) key value as_node w = (inr res, w') /\
    (EditResult.success res = true ->
     key ≠ k_count ->
     tail (history tid w') = history tid w /\
     lookup_key key (values (latest tid w')) = Some value /\
     (forall k', k' ≠ key -> k' ≠ k_count ->
        lookup_key k' (values (latest tid w'))
        = lookup_key k' (values (latest tid w))) /\
     (forall c, count (values (latest tid w)) = Some c ->
        count (values (latest tid w')) = Some (c + c))) /\
    (EditResult.success res = false -> self_graph w' = self_graph w) /\
    (as_node ∉ five_nodes -> EditResult.success res = false).
Proof.
  rewrite update_state_unfold. cbn zeta. case_bool_decide as Hin.
  - destruct (successors g as_node _ w) as [[e|sched] w1] eqn:Es.
    + eexists _, _. split; [done|]. cbn. split; [done|]. split; [|done].
      intros _. by eapply keeps_graph_successors.
    + destruct (put_checkpoint_spec tid
        (Snapshot (apply_writes (values (latest tid w))
                     ((reported_values tid w) .[key ↦ value]))
           sched (Meta "update" (saved_step tid w + 1))) w1)
        as (w2 & Hp & Hh & _).
      rewrite Hp. cbn [snd].
      apply (keeps_graph_successors R) in Es.
      rewrite (history_keeps_graph tid w w1 Es) in Hh.
      eexists _, _. split; [done|]. cbn. split; [|by split].
      intros _ Hk.
      assert (latest tid w2 =
        Snapshot (apply_writes (values (latest tid w))
                    ((reported_values tid w) .[key ↦ value]))
          sched (Meta "update" (saved_step tid w + 1)))
        as -> by (unfold latest at 1; by rewrite Hh).
      rewrite Hh. cbn. split; [done|].
      unfold reported_values, latest.
      destruct (history tid w) as [|cp past].
      * destruct (edit_empty_thread key value Hk) as (Hkey & Hother & Hcount).
        split; [done|]. split; [done|].
        intros c [= <-]. exact Hcount.
      * split; [by apply edit_named_key|].
        split; [intros k' ? ?; by apply edit_other_keys|].
        intros c Hc. by apply edit_count.
  - eexists _, _. split; [done|]. cbn. by repeat split.
Qed.

(** ** Progress *)

Lemma save_essay_total s n ch w :
  exists w', save_essay R s n ch w = (inr tt, w').
Proof.
  destruct (save_essay R s n ch w) as [r w'] eqn:E.
  apply save_essay_inr in E as [-> _]. by exists w'.
Qed.

Lemma node_runs s w n action :
  providers_answer R -> session_state s ->
  assoc n (nodes g) = Some action ->
  exists u w', action s w = (inr u, w').
Proof.
  intros (Hmodel & Hstruct & Hsearch)
    ([t Ht] & [p Hp] & [d Hd] & [cr Hcr] & [c Hc] & _ & _) H.
  apply (assoc_nodes R) in H as
    [[-> ->]|[[-> ->]|[[-> ->]|[[-> ->]|[-> ->]]]]].
  - unfold plan_node.
    rewrite (bind_run _ _ w t w) by by apply (getitem_some k_task).
    destruct (Hmodel (calls w) [SystemMessage PLAN_PROMPT; HumanMessage t])
      as [r Hr].
    rewrite (bind_run _ _ w r (tick w)) by (unfold call; by rewrite Hr).
    match goal with |- context [save_essay R s ?n ?ch] =>
      destruct (save_essay_total s n ch (tick w)) as [w1 Hs] end.
    rewrite (bind_run _ _ _ tt w1) by done. by eexists _, _.
  - unfold research_plan_node.
    rewrite (bind_run _ _ w t w) by by apply (getitem_some k_task).
    destruct (Hstruct (calls w)
                [SystemMessage RESEARCH_PLAN_PROMPT; HumanMessage t])
      as [qs Hqs].
    rewrite (bind_run _ _ w qs (tick w)) by (unfold call; by rewrite Hqs).
    rewrite (bind_run _ _ (tick w) c (tick w))
      by by apply (getitem_some k_content).
    unfold bind. rewrite search_all_answers by (intros; apply Hsearch).
    by eexists _, _.
  - unfold generation_node.
    rewrite (bind_run _ _ w c w) by by apply (getitem_some k_content).
    rewrite (bind_run _ _ w t w) by by apply (getitem_some k_task).
    rewrite (bind_run _ _ w p w) by by apply (getitem_some k_plan).
    match goal with |- context [call ?f] =>
      destruct (Hmodel (calls w)
        [SystemMessage (WRITER_PROMPT_format (join (nl +:+ nl) c));
         HumanMessage (t +:+ nl +:+ nl +:+ "Here is my plan:"
                         +:+ nl +:+ nl +:+ p)]) as [r Hr];
      rewrite (bind_run (call f) _ w r (tick w))
        by (unfold call; by rewrite Hr)
    end.
    match goal with |- context [save_essay R s ?n ?ch] =>
      destruct (save_essay_total s n ch (tick w)) as [w1 Hs] end.
    rewrite (bind_run _ _ _ tt w1) by done. by eexists _, _.
  - unfold reflection_node.
    rewrite (bind_run _ _ w d w) by by apply (getitem_some k_draft).
    destruct (Hmodel (calls w)
                [SystemMessage REFLECTION_PROMPT; HumanMessage d]) as [r Hr].
    rewrite (bind_run _ _ w r (tick w)) by (unfold call; by rewrite Hr).
    match goal with |- context [save_essay R s ?n ?ch] =>
      destruct (save_essay_total s n ch (tick w)) as [w1 Hs] end.
    rewrite (bind_run _ _ _ tt w1) by done. by eexists _, _.
  - unfold research_critique_node.
    rewrite (bind_run _ _ w cr w) by by apply (getitem_some k_critique).
    destruct (Hstruct (calls w)
                [SystemMessage RESEARCH_CRITIQUE_PROMPT; HumanMessage cr])
      as [qs Hqs].
    rewrite (bind_run _ _ w qs (tick w)) by (unfold call; by rewrite Hqs).
    rewrite (bind_run _ _ (tick w) c (tick w))
      by by apply (getitem_some k_content).
    unfold bind. rewrite search_all_answers by (intros; apply Hsearch).
    by eexists _, _.
Qed.

Lemma session_state_apply_writes s u :
  session_state s -> session_state (apply_writes s u).
Proof.
  intros (? & ? & ? & ? & ? & ? & ?). repeat split.
  - by apply (apply_writes_keeps_keys s u k_task).
  - by apply (apply_writes_keeps_keys s u k_plan).
  - by apply (apply_writes_keeps_keys s u k_draft).
  - by apply (apply_writes_keeps_keys s u k_critique).
  - by apply (apply_writes_keeps_keys s u k_content).
  - by apply (apply_writes_keeps_keys s u k_revision_number).
  - by apply (apply_writes_keeps_keys s u k_max_revisions).
Qed.

Lemma assoc_five n :
  n ∈ five_nodes -> exists action, assoc n (nodes g) = Some action.
Proof.
  unfold five_nodes. rewrite !elem_of_cons, elem_of_nil.
  intros [->|[->|[->|[->|[->|[]]]]]]; by eexists.
Qed.

Lemma successors_runs n s w :
  session_state s -> exists sched w', successors g n s w = (inr sched, w').
Proof.
  intros (_ & _ & _ & _ & _ & [rev Hr] & [lim Hl]).
  destruct (decide (n = "generate")) as [->|Hn].
  - rewrite successors_generate.
    destruct (should_continue_some R s w rev lim Hr Hl) as (w' & -> & _).
    by eexists _, _.
  - unfold successors. rewrite run_branches_other by done.
    by eexists _, _.
Qed.

Lemma superstep_runs tid cp w n :
  providers_answer R -> session_state (values cp) -> next cp = [n] ->
  n ∈ five_nodes ->
  exists cp' w', superstep g tid cp w = (inr cp', w').
Proof.
  intros Hp Hs Hn Hin.
  destruct (assoc_five n Hin) as [action Ha].
  destruct (node_runs (values cp) w n action Hp Hs Ha) as (u & w1 & Hu).
  destruct (successors_runs n (apply_writes (values cp) u) w1
              (session_state_apply_writes _ u Hs)) as (sched & w2 & Hsu).
  unfold superstep. rewrite Hn. cbn [run_tasks]. unfold run_task.
  rewrite Ha. unfold bind. rewrite Hu, Hsu. cbn. by eexists _, _.
Qed.

(** X16: from a session state a node fails only if a provider fails.  If
    the model and the search service answer every request, and the state
    has the keys that the nodes read ([task], [plan], [draft], [critique],
    [content], [revision_number], [max_revisions]; the initial state of
    [create_session] binds them all), then the step that runs any of the
    five nodes completes, and the state it leaves has those keys again. *)
Theorem step_completes tid cp w n :
  providers_answer R -> session_state (values cp) -> next cp = [n] ->
  n ∈ five_nodes ->
  exists cp' w',
    superstep g tid cp w = (inr cp', w') /\ session_state (values cp').
Proof.
  intros Hp Hs Hn Hin.
  destruct (superstep_runs tid cp w n Hp Hs Hn Hin) as (cp' & w' & H).
  exists cp', w'. split; [done|].
  destruct (superstep_one _ _ _ _ _ _ H Hn)
    as (u & sched & w1 & w2 & _ & _ & -> & _).
  by apply session_state_apply_writes.
Qed.

(** ** Termination *)

Lemma transitions_five n t : (n, t) ∈ transitions -> n ∈ five_nodes.
Proof.
  unfold transitions, five_nodes. rewrite !elem_of_cons, !elem_of_nil.
  intros [H|[H|[H|[H|[H|[]]]]]]; injection H as -> _; tauto.
Qed.

Lemma step_plain tid cp w n t r m c :
  providers_answer R -> running (values cp) r m c -> next cp = [n] ->
  (n, t) ∈ transitions -> n ≠ "generate" ->
  exists cp' w',
    superstep g tid cp w = (inr cp', w') /\
    running (values cp') r m (c + 1) /\ next cp' = [t] /\
    history tid w' = cp' :: history tid w.
Proof.
  intros Hp (Hs & Hr & Hm & Hc) Hn Ht Hng.
  destruct (superstep_runs tid cp w n Hp Hs Hn (transitions_five _ _ Ht))
    as (cp' & w' & H).
  exists cp', w'. split; [done|].
  pose proof (superstep_inr R _ _ _ _ _ H) as (_ & _ & _ & _ & Hh & _).
  destruct (superstep_one _ _ _ _ _ _ H Hn)
    as (u & sched & w1 & w2 & Hu & Hsu & Hv & Hsched).
  split; [|split; [|done]].
  - rewrite Hv. split; [by apply session_state_apply_writes|].
    cbn. rewrite (node_update_revision _ _ _ Hu).
    destruct (node_update_fixed _ _ _ Hu) as (_ & -> & _).
    rewrite (node_update_count _ _ _ Hu), Hc.
    destruct (decide (n = "generate")); [done|]. by cbn.
  - rewrite Hsched. clear Hsched Hv H Hh.
    unfold transitions in Ht. rewrite !elem_of_cons, elem_of_nil in Ht.
    destruct Ht as [Ht|[Ht|[Ht|[Ht|[Ht|[]]]]]]; injection Ht as -> ->;
      try done.
    + rewrite successors_planner in Hsu. by injection Hsu as <-.
    + rewrite successors_research_plan in Hsu. by injection Hsu as <-.
    + rewrite successors_reflect in Hsu. by injection Hsu as <-.
    + rewrite successors_research_critique in Hsu. by injection Hsu as <-.
Qed.

Lemma step_generate tid cp w r m c :
  providers_answer R -> running (values cp) r m c ->
  next cp = ["generate"] ->
  exists cp' w',
    superstep g tid cp w = (inr cp', w') /\
    running (values cp') (r + 1) m (c + 1) /\
    next cp' = (if (r + 1 >? m)%Z then [] else ["reflect"]) /\
    lnode (values cp') = Some "generate" /\
    history tid w' = cp' :: history tid w.
Proof.
  intros Hp (Hs & Hr & Hm & Hc) Hn.
  assert ("generate" ∈ five_nodes) as Hin by (do 2 right; left).
  destruct (superstep_runs tid cp w _ Hp Hs Hn Hin) as (cp' & w' & H).
  exists cp', w'. split; [done|].
  pose proof (superstep_inr R _ _ _ _ _ H) as (_ & _ & _ & _ & Hh & _).
  destruct (superstep_one _ _ _ _ _ _ H Hn)
    as (u & sched & w1 & w2 & Hu & Hsu & Hv & Hsched).
  assert (running (values cp') (r + 1) m (c + 1)) as Hrun.
  { rewrite Hv. split; [by apply session_state_apply_writes|].
    cbn. rewrite (node_update_revision _ _ _ Hu).
    destruct (node_update_fixed _ _ _ Hu) as (_ & -> & _).
    rewrite (node_update_count _ _ _ Hu), Hc. cbn.
    unfold next_revision. by rewrite Hr. }
  split; [done|]. split; [|split; [|done]].
  - rewrite Hsched. rewrite <- Hv in Hsu.
    destruct Hrun as (_ & Hr' & Hm' & _).
    rewrite successors_generate in Hsu.
    destruct (should_continue_some R (values cp') w1 _ _ Hr' Hm')
      as (w3 & Hsc & _).
    rewrite Hsc in Hsu. injection Hsu as <- _.
    by destruct (r + 1 >? m)%Z.
  - rewrite Hv. cbn. by rewrite (node_update_lnode _ _ _ Hu).
Qed.

Lemma loop_step_no_pause tid fuel cp w n cp1 w1 :
  next cp = [n] -> superstep g tid cp w = (inr cp1, w1) ->
  pregel_loop R g [] tid (S fuel) cp w = pregel_loop R g [] tid fuel cp1 w1.
Proof.
  intros Hn Hs. rewrite pregel_loop_step by by rewrite Hn.
  rewrite Hs, Hn. cbn [existsb].
  by rewrite bool_decide_eq_false_2 by apply not_elem_of_nil.
Qed.

(** From a pending [generate] with [k] revisions to go, the loop takes
    [3 * k + 1] steps, after which nothing is pending. *)
Lemma loop_from_generate tid k : forall fuel cp w r m c,
  providers_answer R -> running (values cp) r m c ->
  next cp = ["generate"] -> Z.to_nat (m - r) = k ->
  exists cpf w',
    pregel_loop R g [] tid (3 * k + 1 + fuel) cp w
      = pregel_loop R g [] tid fuel cpf w' /\
    latest tid w' = cpf /\ next cpf = [] /\
    lnode (values cpf) = Some "generate" /\
    running (values cpf) (r + 1 + Z.of_nat k) m (c + 3 * Z.of_nat k + 1) /\
    advances (values cp) (values cpf).
Proof.
  induction k as [|k IH]; intros fuel cp w r m c Hp Hrun Hn Hk.
  - destruct (step_generate tid cp w r m c Hp Hrun Hn)
      as (cp1 & w1 & Hs & Hrun1 & Hn1 & Hl1 & Hh1).
    assert (next cp1 = []) as Hend.
    { rewrite Hn1. destruct (Z.gtb_spec (r + 1) m); [done|lia]. }
    exists cp1, w1. cbn [Nat.mul Nat.add].
    rewrite (loop_step_no_pause _ _ _ _ _ _ _ Hn Hs).
    split; [done|]. split; [unfold latest; by rewrite Hh1|].
    split; [done|]. split; [done|].
    split; [|by eapply superstep_advances].
    replace (r + 1 + Z.of_nat 0) with (r + 1) by lia.
    by replace (c + 3 * Z.of_nat 0 + 1) with (c + 1) by lia.
  - destruct (step_generate tid cp w r m c Hp Hrun Hn)
      as (cp1 & w1 & Hs1 & Hrun1 & Hn1 & _ & _).
    assert (next cp1 = ["reflect"]) as Hn1'.
    { rewrite Hn1. destruct (Z.gtb_spec (r + 1) m); [lia|done]. }
    destruct (step_plain tid cp1 w1 "reflect" "research_critique" _ _ _
                Hp Hrun1 Hn1') as (cp2 & w2 & Hs2 & Hrun2 & Hn2 & _);
      [do 3 right; by left|done|].
    destruct (step_plain tid cp2 w2 "research_critique" "generate" _ _ _
                Hp Hrun2 Hn2) as (cp3 & w3 & Hs3 & Hrun3 & Hn3 & _);
      [do 4 right; by left|done|].
    destruct (IH fuel cp3 w3 (r + 1) m (c + 1 + 1 + 1) Hp Hrun3 Hn3)
      as (cpf & w' & Hloop & Hlat & Hend & Hl & Hrunf & Hadv); [lia|].
    exists cpf, w'.
    replace (3 * S k + 1 + fuel)%nat
      with (S (S (S (3 * k + 1 + fuel)))) by lia.
    rewrite (loop_step_no_pause _ _ _ _ _ _ _ Hn Hs1).
    rewrite (loop_step_no_pause _ _ _ _ _ _ _ Hn1' Hs2).
    rewrite (loop_step_no_pause _ _ _ _ _ _ _ Hn2 Hs3).
    split; [done|]. split; [done|]. split; [done|]. split; [done|].
    split.
    + replace (r + 1 + Z.of_nat (S k)) with (r + 1 + 1 + Z.of_nat k) by lia.
      by replace (c + 3 * Z.of_nat (S k) + 1)
        with (c + 1 + 1 + 1 + 3 * Z.of_nat k + 1) by lia.
    + apply superstep_advances in Hs1. apply superstep_advances in Hs2.
      apply superstep_advances in Hs3.
      eapply advances_trans; [done|]. eapply advances_trans; [done|].
      by eapply advances_trans.
Qed.

(** The first [invoke] of a session created without pause points, on
    providers that answer: all the nodes run, [3 * max(max_revisions, 0) + 3]
    steps, if the bound allows that many, and what remains of the bound is
    left for the check that ends the loop. *)
Lemma first_invoke_runs user essay topic max_rev w fuel :
  providers_answer R ->
  recursion_limit R = (3 * Z.to_nat max_rev + 3 + fuel)%nat ->
  let sid := uuid4 R (calls w) in
  let w1 := Env (self_db w) (Compiled None ∅) (S (calls w)) in
  let init := Dict (Some topic) (Some "") (Some "") (Some "") (Some "")
                (Some []) (Some []) (Some 0) (Some max_rev) (Some 0)
                (Some (Some user)) (Some (Some essay)) (Some (Some sid)) in
  exists cpf w2,
    invoke R g (Some init) sid w1 = pregel_loop R g [] sid fuel cpf w2 /\
    latest sid w2 = cpf /\ next cpf = [] /\
    lnode (values cpf) = Some "generate" /\
    revision_number (values cpf) = Some (Z.max max_rev 0 + 1) /\
    count (values cpf) = Some (3 * Z.max max_rev 0 + 3) /\
    task (values cpf) = Some topic.
Proof.
  intros Hp Elim sid w1 init.
  set (received := Snapshot (values (latest sid w1)) ["__start__"]
                     (Meta "input" (step (metadata (latest sid w1)) + 1))).
  set (cp0 := Snapshot (apply_writes (values (latest sid w1)) init)
                (option_list (entry_point g))
                (Meta "loop" (step (metadata (latest sid w1)) + 2))).
  destruct (put_checkpoint_spec sid received w1) as (wa & Hpa & _).
  destruct (put_checkpoint_spec sid cp0 wa) as (wb & Hpb & _).
  assert (running (values cp0) 0 max_rev 0) as Hrun0.
  { subst cp0 init. cbn. repeat split; by eexists. }
  assert (next cp0 = ["planner"]) as Hn0 by done.
  destruct (step_plain sid cp0 wb "planner" "research_plan" _ _ _
              Hp Hrun0 Hn0) as (cp1 & wc & Hs1 & Hrun1 & Hn1 & _);
    [by left|done|].
  destruct (step_plain sid cp1 wc "research_plan" "generate" _ _ _
              Hp Hrun1 Hn1) as (cp2 & wd & Hs2 & Hrun2 & Hn2 & _);
    [right; by left|done|].
  destruct (loop_from_generate sid (Z.to_nat max_rev) fuel cp2 wd
              0 max_rev (0 + 1 + 1) Hp Hrun2 Hn2)
    as (cpf & w2 & Hloop & Hlat & Hend & Hl & (_ & Hrev & _ & Hcount)
        & (Ht & _));
    [f_equal; lia|].
  exists cpf, w2. split.
  { rewrite invoke_input. cbn zeta. fold received. fold cp0.
    rewrite (bind_run _ _ w1 tt wa) by done.
    rewrite (bind_run _ _ wa tt wb) by done.
    rewrite Elim.
    replace (3 * Z.to_nat max_rev + 3 + fuel)%nat
      with (S (S (3 * Z.to_nat max_rev + 1 + fuel))) by lia.
    assert (default [] (interrupt_after_nodes (self_graph w1)) = [])
      as -> by done.
    rewrite (loop_step_no_pause _ _ _ _ _ _ _ Hn0 Hs1).
    by rewrite (loop_step_no_pause _ _ _ _ _ _ _ Hn1 Hs2). }
  apply superstep_advances in Hs1 as (Ht1 & _).
  apply superstep_advances in Hs2 as (Ht2 & _).
  split; [done|]. split; [done|]. split; [done|].
  split; [rewrite Hrev; f_equal; lia|].
  split; [rewrite Hcount; f_equal; lia|].
  by rewrite Ht, Ht2, Ht1.
Qed.

(** X17: a session without pause points runs to the end.  If the model and
    the search service answer every request and the engine's bound on steps
    is at least [3 * max(max_revisions, 0) + 4], the first [run_step] of a
    session created with an empty pause-point list succeeds with nothing
    left to run: the last node is [generate], [revision_number] is
    [max(max_revisions, 0) + 1] (that many drafts were written), [count] is
    [3 * max(max_revisions, 0) + 3] and [task] is the topic. *)
Theorem workflow_terminates user essay topic max_rev w session cfg init w1 :
  providers_answer R ->
  (3 * Z.to_nat max_rev + 4 <= recursion_limit R)%nat ->
  create_session R user essay topic max_rev [] w
    = (inr (session, cfg, init), w1) ->
  exists v md w2,
    run_step R cfg (Some init) w1 =
      (inr (StepResult.Make true (Some v) None (Some v) (Some [])
              (Some md)), w2) /\
    lnode v = Some "generate" /\
    revision_number v = Some (Z.max max_rev 0 + 1) /\
    count v = Some (3 * Z.max max_rev 0 + 3) /\
    task v = Some topic.
Proof.
  intros Hp Hlim Hcreate.
  destruct (create_session_cases R user essay topic max_rev [] w)
    as [[[Hne _] _]|[_ Hok]]; [done|].
  rewrite Hok in Hcreate. injection Hcreate as <- <- <- <-.
  destruct (first_invoke_runs user essay topic max_rev w
              (S (recursion_limit R - (3 * Z.to_nat max_rev + 4))) Hp)
    as (cpf & w2 & Hinv & Hlat & Hend & Hl & Hrev & Hcount & Ht); [lia|].
  rewrite pregel_loop_done in Hinv by done.
  exists (values cpf), (metadata cpf), w2.
  rewrite run_step_unfold. cbn [thread_id]. rewrite Hinv. cbn zeta.
  rewrite Hlat, Hend. by repeat split.
Qed.

(** X20: the bound on steps counts the check that ends the run.  With
    providers that answer and a bound of exactly
    [3 * max(max_revisions, 0) + 3], the number of nodes the workflow runs,
    the first [run_step] of a session created with an empty pause-point
    list fails with the message of the engine's [GraphRecursionError],
    although every node has run: the thread's last checkpoint has nothing
    pending, its last node is [generate], its [revision_number] is
    [max(max_revisions, 0) + 1] and its [count] the number of nodes. *)
Theorem workflow_hits_bound user essay topic max_rev w session cfg init w1 :
  providers_answer R ->
  recursion_limit R = (3 * Z.to_nat max_rev + 3)%nat ->
  create_session R user essay topic max_rev [] w
    = (inr (session, cfg, init), w1) ->
  exists w2,
    run_step R cfg (Some init) w1 =
      (inr (StepResult.Make false None (Some (recursion_error R)) None None
              None), w2) /\
    next (latest session w2) = [] /\
    lnode (values (latest session w2)) = Some "generate" /\
    revision_number (values (latest session w2))
      = Some (Z.max max_rev 0 + 1) /\
    count (values (latest session w2)) = Some (3 * Z.max max_rev 0 + 3).
Proof.
  intros Hp Hlim Hcreate.
  destruct (create_session_cases R user essay topic max_rev [] w)
    as [[[Hne _] _]|[_ Hok]]; [done|].
  rewrite Hok in Hcreate. injection Hcreate as <- <- <- <-.
  destruct (first_invoke_runs user essay topic max_rev w 0%nat Hp)
    as (cpf & w2 & Hinv & Hlat & Hend & Hl & Hrev & Hcount & Ht); [lia|].
  rewrite pregel_loop_out in Hinv.
  exists w2. rewrite run_step_unfold. cbn [thread_id]. rewrite Hinv.
  rewrite Hlat. by repeat split.
Qed.

(** ** Threads *)

Lemma put_checkpoint_other tid tid' cp w :
  tid' ≠ tid ->
  history tid' (put_checkpoint tid cp w).2 = history tid' w.
Proof.
  intros Hne. unfold put_checkpoint, history. cbn.
  by rewrite lookup_insert_ne.
Qed.

Lemma superstep_other tid tid' cp w r w' :
  tid' ≠ tid -> superstep g tid cp w = (r, w') ->
  history tid' w' = history tid' w.
Proof.
  intros Hne H. unfold superstep in H.
  apply bind_any in H as [(e & H & _)|(results & w1 & Hr & H)].
  - apply history_keeps_graph. by eapply keeps_graph_run_tasks.
  - apply (keeps_graph_run_tasks R) in Hr.
    rewrite <- (history_keeps_graph tid' w w1 Hr).
    unfold bind in H.
    match type of H with context [put_checkpoint tid ?c w1] =>
      pose proof (put_checkpoint_other tid tid' c w1 Hne) as Hp;
      destruct (put_checkpoint tid c w1) as [[e|[]] w2] eqn:Ep
    end; injection H as _ <-; exact Hp.
Qed.

Lemma pregel_loop_other pause tid tid' fuel : forall cp w r w',
  tid' ≠ tid -> pregel_loop R g pause tid fuel cp w = (r, w') ->
  history tid' w' = history tid' w.
Proof.
  induction fuel as [|fuel IH]; intros cp w r w' Hne.
  - rewrite pregel_loop_out. by intros [= _ <-].
  - destruct (next cp) as [|n rest] eqn:En.
    { rewrite pregel_loop_done by done. by intros [= _ <-]. }
    rewrite pregel_loop_step by by rewrite En.
    destruct (superstep g tid cp w) as [[e|cp1] w1] eqn:Es.
    + intros [= _ <-]. by eapply superstep_other.
    + apply (superstep_other _ tid') in Es; [|done].
      destruct (existsb _ _).
      * by intros [= _ <-].
      * intros H. apply IH in H; [|done]. congruence.
Qed.

(** X18: a run touches the checkpoints of its own thread only.  Whatever
    [run_step] on a thread does, succeed or fail, with or without initial
    state, the checkpoints of every other thread of the graph are the same
    afterwards, and so are the graph's pause points. *)
Theorem run_step_other_threads tid tid' input w :
  tid' ≠ tid ->
  let w' := (run_step R (Configurable tid) input w).2 in
  history tid' w' = history tid' w /\
  interrupt_after_nodes (self_graph w')
  = interrupt_after_nodes (self_graph w).
Proof.
  intros Hne w'. subst w'. rewrite run_step_unfold. cbn [thread_id].
  destruct (invoke R g input tid w) as [r w1] eqn:Ei.
  assert (history tid' w1 = history tid' w /\
          interrupt_after_nodes (self_graph w1)
          = interrupt_after_nodes (self_graph w)) as Hgoal.
  { destruct input as [i|].
    - rewrite invoke_input in Ei. cbn zeta in Ei. unfold bind in Ei.
      match type of Ei with context [put_checkpoint tid ?c w] =>
        destruct (put_checkpoint_spec tid c w) as (wa & Hpa & _ & Hia & _);
        pose proof (put_checkpoint_other tid tid' c w Hne) as Hoa;
        rewrite Hpa in Ei, Hoa; cbn [snd] in Hoa
      end.
      match type of Ei with context [put_checkpoint tid ?c wa] =>
        destruct (put_checkpoint_spec tid c wa) as (wb & Hpb & _ & Hib & _);
        pose proof (put_checkpoint_other tid tid' c wa Hne) as Hob;
        rewrite Hpb in Ei, Hob; cbn [snd] in Hob
      end.
      pose proof (pregel_loop_history R _ _ _ _ _ _ _ Ei) as (_ & Hi & _).
      apply (pregel_loop_other _ _ tid') in Ei; [|done].
      split; congruence.
    - destruct (history tid w) as [|cp past] eqn:Eh.
      + unfold invoke, get_world, bind in Ei. rewrite Eh in Ei.
        by injection Ei as _ <-.
      + rewrite (invoke_resume R _ _ _ _ Eh) in Ei.
        pose proof (pregel_loop_history R _ _ _ _ _ _ _ Ei) as (_ & Hi & _).
        apply (pregel_loop_other _ _ tid') in Ei; [|done]. by split. }
  by destruct r.
Qed.

(** ** Where a run stops *)

Lemma pregel_loop_stops pause tid fuel : forall cp w v w',
  pregel_loop R g pause tid fuel cp w = (inr v, w') ->
  (length (next cp) <= 1)%nat -> latest tid w = cp ->
  next (latest tid w') = [] \/ exists n, n ∈ pause /\ lnode v = Some n.
Proof.
  induction fuel as [|fuel IH]; intros cp w v w'; [done|].
  - destruct (next cp) as [|n rest] eqn:En.
    { rewrite pregel_loop_done by done. intros [= <- <-] _ ->. by left. }
    rewrite pregel_loop_step by by rewrite En.
    destruct (superstep g tid cp w) as [[e|cp1] w1] eqn:Es; [discriminate|].
    intros H Hlen Hlat. destruct rest as [|]; [|cbn in Hlen; lia].
    pose proof (superstep_inr R _ _ _ _ _ Es) as (_ & _ & _ & _ & Hh & _).
    pose proof (superstep_single R _ _ _ _ _ _ Es En) as (_ & Hl & Hnext).
    rewrite En in H. cbn [existsb] in H. rewrite orb_false_r in H.
    case_bool_decide as Hp.
    + injection H as <- <-. right. by exists n.
    + eapply IH; [done| |unfold latest; by rewrite Hh].
      destruct Hnext as [->|(m & -> & _)]; cbn; lia.
Qed.

(** X19: a run stops early only at a pause point.  When [run_step] without
    initial state succeeds on a thread whose last checkpoint has at most one
    node pending, as every checkpoint of this graph has, either nothing is
    left to run, or the last node that ran is one of the graph's pause
    points; so on a graph without pause points a successful [run_step]
    always runs the workflow to its end. *)
Theorem run_step_stops_at_pause tid w cp past res w' :
  history tid w = cp :: past -> (length (next cp) <= 1)%nat ->
  run_step R (Configurable tid) None w = (inr res, w') ->
  StepResult.success res = true ->
  (StepResult.next_node res = Some [] \/
   exists n v ia,
     interrupt_after_nodes (self_graph w) = Some ia /\ n ∈ ia /\
     StepResult.current_state res = Some v /\ lnode v = Some n) /\
  (interrupt_after_nodes (self_graph w) = None ->
   StepResult.next_node res = Some []).
Proof.
  intros Hh Hlen. rewrite run_step_unfold. cbn [thread_id].
  rewrite (invoke_resume R _ _ _ _ Hh).
  destruct (pregel_loop R g _ tid (recursion_limit R + 2) cp w)
    as [[e|v] w1] eqn:El; intros [= <- <-]; [done|]. intros _. cbn.
  pose proof (pregel_loop_history R _ _ _ _ _ _ _ El) as (_ & _ & Hv).
  assert (latest tid w = cp) as Hlat by (unfold latest; by rewrite Hh).
  rewrite (Hv v eq_refl Hlat) by by rewrite Hh.
  apply pregel_loop_stops in El; [|done|done].
  destruct El as [->|(n & Hn & Hl)].
  - split; [by left|done].
  - destruct (interrupt_after_nodes (self_graph w)) as [ia|] eqn:Ei;
      cbn in Hn.
    + split; [|done]. right. by exists n, v, ia.
    + by apply elem_of_nil in Hn.
Qed.

(** ** Pausing and resuming *)





End Coverage.

(** ** The further properties on the sample sessions *)

Lemma sample_runtime_answers : providers_answer sample_runtime.
Proof. repeat split; intros; eexists; reflexivity. Qed.

Lemma sample_session_state : session_state (values sample_cp).
Proof. vm_compute. repeat split; by eexists. Qed.

(** The step that runs [research_plan] keeps the plan. *)
Lemma step_frame_witness :
  next sample_cp = ["research_plan"] /\
  (k_plan ∉ writes "research_plan") /\
  lookup_key k_plan (values sample_cp1) = lookup_key k_plan (values sample_cp).
Proof.
  assert (superstep sample_graph sample_tid sample_cp sample_w1
          = (inr sample_cp1, sample_w2)) as H by (vm_compute; reflexivity).
  assert (next sample_cp = ["research_plan"]) as Hn
    by (vm_compute; reflexivity).
  assert (k_plan ∉ writes "research_plan") as Hk.
  { change (writes "research_plan")
      with [k_content; k_queries; k_lnode; k_count].
    rewrite !elem_of_cons, elem_of_nil.
    intros [?|[?|[?|[?|[]]]]]; discriminate. }
  split; [exact Hn|]. split; [exact Hk|].
  exact (step_frame sample_runtime _ _ _ _ _ _ _ H Hn Hk).
Defined.

(** The step that runs [research_plan] takes [count] from 1 to 2. *)
Lemma step_count_lnode_witness :
  count (values sample_cp) = Some 1 /\
  count (values sample_cp1) = Some (1 + Z.of_nat (length (next sample_cp))).
Proof.
  assert (superstep sample_graph sample_tid sample_cp sample_w1
          = (inr sample_cp1, sample_w2)) as H by (vm_compute; reflexivity).
  assert (count (values sample_cp) = Some 1) as Hc
    by (vm_compute; reflexivity).
  split; [exact Hc|].
  exact (proj1 (step_count_lnode sample_runtime _ _ _ _ _ _ H Hc)).
Defined.

(** With revision limit 0 the first [generate] step ends the workflow. *)
Lemma step_ends_after_generate_witness :
  next short_cp = ["generate"] /\ next short_cp1 = [] /\
  exists rev lim,
    revision_number (values short_cp1) = Some rev /\
    max_revisions (values short_cp1) = Some lim /\ lim < rev.
Proof.
  assert (superstep sample_graph sample_tid short_cp short_w
          = (inr short_cp1, short_w1)) as H by (vm_compute; reflexivity).
  assert (next short_cp = ["generate"]) as Hn by (vm_compute; reflexivity).
  assert (next short_cp1 = []) as He by (vm_compute; reflexivity).
  split; [exact Hn|]. split; [exact He|].
  exact (proj2 (step_ends_after_generate sample_runtime _ _ _ _ _ _
                  H Hn He)).
Defined.

(** The first [run_step] of the sample session keeps its task. *)
Lemma run_step_advances_witness :
  StepResult.success sample_res = true /\
  exists v,
    StepResult.response sample_res = Some v /\
    advances
      (apply_writes (values (latest sample_tid sample_w0)) sample_init) v.
Proof.
  assert (run_step sample_runtime (Configurable sample_tid)
            (Some sample_init) sample_w0 = (inr sample_res, sample_w1))
    as H by (vm_compute; reflexivity).
  assert (StepResult.success sample_res = true) as Hs
    by (vm_compute; reflexivity).
  split; [exact Hs|].
  exact (run_step_advances sample_runtime _ _ _ _ _ H Hs).
Defined.

(** With the model down, the resumed run fails again with the model's
    message and [planner] is still pending. *)
Lemma failed_run_step_keeps_pending_witness :
  StepResult.success failed_res = false /\
  history sample_tid failed_w ≠ [] /\
  StepResult.error failed_res = Some "Connection error." /\
  next (latest sample_tid failed_w1) ≠ [].
Proof.
  assert (run_step failing_runtime (Configurable sample_tid) None failed_w
          = (inr failed_res, failed_w1)) as H by (vm_compute; reflexivity).
  assert (StepResult.success failed_res = false) as Hs
    by (vm_compute; reflexivity).
  assert (history sample_tid failed_w ≠ []) as Hh
    by (vm_compute; discriminate).
  assert (StepResult.error failed_res = Some "Connection error.") as He
    by (vm_compute; reflexivity).
  assert (StepResult.error failed_res
          ≠ Some (recursion_error failing_runtime)) as Hm
    by (vm_compute; discriminate).
  split; [exact Hs|]. split; [exact Hh|]. split; [exact He|].
  destruct (failed_run_step_keeps_pending failing_runtime _ _ _ _ H Hs Hh)
    as (_ & _ & _ & Hnext & _).
  exact (Hnext Hm).
Defined.

(** [research_plan_node] on the paused sample session. *)
Lemma research_plan_node_returns_witness :
  task (values sample_cp) = Some "Tea" /\
  content (values sample_cp) = Some [] /\
  (research_plan_node sample_runtime (values sample_cp) sample_w1).1 =
    inr (dict0 .[k_content ↦ ["about q1"; "about q2"]]
               .[k_queries ↦ ["q1"; "q2"]] .[k_lnode ↦ "research_plan"]
               .[k_count ↦ 1]).
Proof.
  assert (task (values sample_cp) = Some "Tea") as Ht
    by (vm_compute; reflexivity).
  assert (content (values sample_cp) = Some []) as Hc
    by (vm_compute; reflexivity).
  assert (structured_invoke sample_runtime (calls sample_w1)
            [SystemMessage RESEARCH_PLAN_PROMPT; HumanMessage "Tea"]
          = inr ["q1"; "q2"]) as Hq by (vm_compute; reflexivity).
  assert (forall i q, exists rs, tavily_search sample_runtime i q 2 = inr rs)
    as Hans by (intros; eexists; reflexivity).
  split; [exact Ht|]. split; [exact Hc|].
  rewrite (proj1 (research_plan_node_returns sample_runtime _ sample_w1
                    _ _ _ Ht Hc Hq Hans)).
  vm_compute. reflexivity.
Defined.

(** The search for ["q2"] fails after the one for ["q1"] answered. *)
Lemma search_all_fails_witness :
  ["q1"; "q2"; "q3"] !! 1%nat = Some "q2" /\
  search_all flaky_runtime ["q1"; "q2"; "q3"] [] (init None) =
    (inl (Exception "HTTPError" "429 Too Many Requests"),
     Env None (self_graph (init None)) 2).
Proof.
  split; [reflexivity|].
  apply (search_all_fails flaky_runtime ["q1"; "q2"; "q3"] 1 []
           (init None) "q2").
  - reflexivity.
  - intros j' q' Hj Hq. destruct j' as [|j']; [|lia].
    injection Hq as <-. by eexists.
  - reflexivity.
Defined.

(** [generation_node] on a writer whose database holds the essay. *)
Lemma generation_node_row_witness :
  self_db db_w = Some sample_db /\ sample_db !! 1 = Some sample_row /\
  exists text e',
    draft (match (generation_node sample_runtime drafting db_w).1 with
           | inr u => u | inl _ => dict0 end) = Some text /\
    self_db (generation_node sample_runtime drafting db_w).2
      = Some (<[1 := e']> sample_db) /\
    Essay.draft e' = Some text /\ Essay.revision_number e' = 1.
Proof.
  assert (generation_node sample_runtime drafting db_w =
          (inr (match (generation_node sample_runtime drafting db_w).1 with
                | inr u => u | inl _ => dict0 end),
           (generation_node sample_runtime drafting db_w).2)) as H
    by (vm_compute; reflexivity).
  assert (self_db db_w = Some sample_db) as Hdb by reflexivity.
  assert (truthy_id drafting = Some 1) as Hi by reflexivity.
  assert (sample_db !! 1 = Some sample_row) as He by reflexivity.
  split; [exact Hdb|]. split; [exact He|].
  destruct (generation_node_row sample_runtime _ _ _ _ _ _ _ H Hdb Hi He)
    as (text & e' & Hd & Hr & Hw & Hd' & _).
  exists text, e'. split; [exact Hd|]. split; [exact Hw|].
  split; [exact Hd'|].
  assert (Some (Essay.revision_number e') = Some 1) as Hone
    by (rewrite <- Hr; vm_compute; reflexivity).
  by injection Hone.
Defined.

(** [should_continue] on a state past the limit marks the essay. *)
Lemma should_continue_marks_completed_witness :
  (should_continue sample_runtime finished db_w).1 = inr END /\
  exists e',
    self_db (should_continue sample_runtime finished db_w).2
      = Some (<[1 := e']> sample_db) /\
    Essay.status e' = "completed" /\
    Essay.final_essay e' = Some "Third draft".
Proof.
  assert (should_continue sample_runtime finished db_w =
          (inr END, (should_continue sample_runtime finished db_w).2)) as H
    by (vm_compute; reflexivity).
  split; [by rewrite H|].
  destruct (should_continue_marks_completed sample_runtime _ _ _ _ H)
    as [_ Hend].
  destruct (Hend eq_refl sample_db 1 sample_row eq_refl eq_refl eq_refl)
    as (e' & Hdb & Hs & Hf & _).
  exists e'. by repeat split.
Defined.

(** Creating a second session forgets the paused sample session. *)
Lemma create_session_discards_sessions_witness :
  history sample_tid sample_w1 ≠ [] /\
  history sample_tid
    (create_session sample_runtime 8 2 "Coffee" 1 [] sample_w1).2 = [].
Proof.
  assert (history sample_tid sample_w1 ≠ []) as Hh
    by (vm_compute; discriminate).
  split; [exact Hh|].
  destruct (create_session sample_runtime 8 2 "Coffee" 1 [] sample_w1)
    as [r w'] eqn:E.
  assert (exists session, r = inr session) as [session Hr].
  { revert E. vm_compute. intros [= <- _]. by eexists. }
  destruct (create_session_discards_sessions sample_runtime _ _ _ _ _ _
              _ _ E) as [Hok _].
  exact (proj1 (Hok session Hr sample_tid)).
Defined.

(** [get_session_state] after the first [run_step] of the sample. *)
Lemma get_session_state_after_run_step_witness :
  StepResult.success sample_res = true /\
  (get_session_state (Configurable sample_tid) sample_w1).1 =
    inr (StateView.Make (StepResult.current_state sample_res)
           (StepResult.next_node sample_res)
           (StepResult.metadata sample_res) None).
Proof.
  assert (run_step sample_runtime (Configurable sample_tid)
            (Some sample_init) sample_w0 = (inr sample_res, sample_w1))
    as H by (vm_compute; reflexivity).
  assert (StepResult.success sample_res = true) as Hs
    by (vm_compute; reflexivity).
  split; [exact Hs|].
  by rewrite (get_session_state_after_run_step sample_runtime _ _ _ _ _
                H Hs).
Defined.

(** The pending [research_plan] step of the sample session completes. *)
Lemma step_completes_witness :
  providers_answer sample_runtime /\ session_state (values sample_cp) /\
  exists cp' w',
    superstep sample_graph sample_tid sample_cp sample_w1 = (inr cp', w') /\
    session_state (values cp').
Proof.
  assert (next sample_cp = ["research_plan"]) as Hn
    by (vm_compute; reflexivity).
  assert ("research_plan" ∈ five_nodes) as Hin by (right; left).
  split; [exact sample_runtime_answers|].
  split; [exact sample_session_state|].
  exact (step_completes sample_runtime sample_tid sample_cp sample_w1 _
           sample_runtime_answers sample_session_state Hn Hin).
Defined.

(** A session with revision limit 2 and no pause point ends with the third
    draft after nine steps. *)
Lemma workflow_terminates_witness :
  exists v md w2,
    run_step sample_runtime (Configurable sample_tid) (Some sample_init)
      (create_session sample_runtime 7 1 "Tea" 2 [] (init None)).2 =
      (inr (StepResult.Make true (Some v) None (Some v) (Some [])
              (Some md)), w2) /\
    lnode v = Some "generate" /\
    revision_number v = Some 3 /\ count v = Some 9 /\
    task v = Some "Tea".
Proof.
  assert (3 * Z.to_nat 2 + 4 <= recursion_limit sample_runtime)%nat
    as Hlim by (vm_compute; lia).
  assert (create_session sample_runtime 7 1 "Tea" 2 [] (init None) =
          (inr (sample_tid, Configurable sample_tid, sample_init),
           (create_session sample_runtime 7 1 "Tea" 2 [] (init None)).2))
    as Hc by (vm_compute; reflexivity).
  exact (workflow_terminates sample_runtime _ _ _ _ _ _ _ _ _
           sample_runtime_answers Hlim Hc).
Defined.

(** With the bound at nine, the same session fails although its nine
    nodes have run. *)
Lemma workflow_hits_bound_witness :
  exists w2,
    run_step tight_runtime (Configurable sample_tid) (Some sample_init)
      (create_session tight_runtime 7 1 "Tea" 2 [] (init None)).2 =
      (inr (StepResult.Make false None
              (Some "Recursion limit of 9 reached without hitting a stop condition.")
              None None None), w2) /\
    next (latest sample_tid w2) = [] /\
    count (values (latest sample_tid w2)) = Some 9.
Proof.
  assert (providers_answer tight_runtime) as Hp
    by (repeat split; intros; eexists; reflexivity).
  assert (recursion_limit tight_runtime = (3 * Z.to_nat 2 + 3)%nat)
    as Hlim by reflexivity.
  assert (create_session tight_runtime 7 1 "Tea" 2 [] (init None) =
          (inr (sample_tid, Configurable sample_tid, sample_init),
           (create_session tight_runtime 7 1 "Tea" 2 [] (init None)).2))
    as Hc by (vm_compute; reflexivity).
  destruct (workflow_hits_bound tight_runtime _ _ _ _ _ _ _ _ _ Hp Hlim Hc)
    as (w2 & Hrun & Hn & _ & _ & Hcount).
  exists w2. split; [exact Hrun|]. split; [exact Hn|exact Hcount].
Defined.

(** A run of the sample thread leaves another thread as it is. *)
Lemma run_step_other_threads_witness :
  "session-1" ≠ sample_tid /\
  history "session-1"
    (run_step sample_runtime (Configurable sample_tid) None sample_w1).2
  = history "session-1" sample_w1.
Proof.
  assert ("session-1" ≠ sample_tid) as Hne by discriminate.
  split; [exact Hne|].
  exact (proj1 (run_step_other_threads sample_runtime sample_tid "session-1"
                  None sample_w1 Hne)).
Defined.

(** The paused sample session stops again after [research_plan]. *)
Lemma run_step_stops_at_pause_witness :
  (length (next sample_cp) <= 1)%nat /\
  (StepResult.next_node
     (result_of (run_step sample_runtime (Configurable sample_tid) None
                   sample_w1)) = Some [] \/
   exists n v ia,
     interrupt_after_nodes (self_graph sample_w1) = Some ia /\ n ∈ ia /\
     StepResult.current_state
       (result_of (run_step sample_runtime (Configurable sample_tid) None
                     sample_w1)) = Some v /\
     lnode v = Some n).
Proof.
  assert (history sample_tid sample_w1
          = sample_cp :: tail (history sample_tid sample_w1)) as Hh
    by (vm_compute; reflexivity).
  assert (length (next sample_cp) <= 1)%nat as Hlen by (vm_compute; lia).
  assert (run_step sample_runtime (Configurable sample_tid) None sample_w1 =
          (inr (result_of (run_step sample_runtime (Configurable sample_tid)
                             None sample_w1)),
           (run_step sample_runtime (Configurable sample_tid) None
              sample_w1).2)) as H by (vm_compute; reflexivity).
  assert (StepResult.success
            (result_of (run_step sample_runtime (Configurable sample_tid)
                          None sample_w1)) = true) as Hs
    by (vm_compute; reflexivity).
  split; [exact Hlen|].
  exact (proj1 (run_step_stops_at_pause sample_runtime _ _ _ _ _ _
                  Hh Hlen H Hs)).
Defined.

